(** * AI Travel Booking Concierge Agent: tool adapters and session API

    A shallow embedding of
      - [app/Tools/booking_tool.py]   ([create_booking]),
      - [app/Tools/flight_search.py]  ([search_flights], [_get_mock_flight_data]),
      - [app/Tools/hotel_search.py]   ([search_hotels], [_get_mock_hotel_data]),
      - [app/Tools/utils/memory.py]   ([SimpleMemoryStore]),
      - [app/api/main.py]             ([chat], [delete_session], ...),
      - [app/agent/travel_agent.py]   (the [AgentExecutor] configuration),
    and of the three tools as the [@tool] objects the modules export,
    followed by the properties the specification states about them.

    Python values are a small universe [pyval]; every operation the tools
    apply to a value is a function into [result], which is either a value
    or a raised exception.  A [str] is a string of 8-bit characters, and
    [lower] and [upper] map the ASCII letters.  Everything the code obtains from outside
    (environment variables, HTTP responses, the clock, the file system's
    willingness to accept a write, [json.loads], [str()] of a non-string,
    the agent executor) is a field of a record of oracles, and the
    theorems quantify over all of them. *)

From Stdlib Require Import ZArith Ascii.
From stdpp Require Import gmap strings list.

Set Warnings "-register-all".

(** * Python values, exceptions and the operations the tools use *)
Module Py.

(** An exception: its class name and [str(e)].  Only subclasses of
    [Exception] are represented; the message texts of the interpreter's own
    exceptions follow CPython's wording and no theorem depends on them. *)
Record exn := Exn { exn_class : string; exn_str : string }.

Inductive result (A : Type) : Type :=
| Ok (a : A)
| Raise (e : exn).
Arguments Ok {A} a.
Arguments Raise {A} e.

Definition bind {A B : Type} (c : result A) (k : A → result B) : result B :=
  match c with
  | Ok a => k a
  | Raise e => Raise e
  end.

Declare Scope py_scope.
Delimit Scope py_scope with py.
Notation "'let*' x := c 'in' k" := (bind c (fun x => k))
  (at level 10, x name, c at level 100, k at level 200) : py_scope.
Open Scope py_scope.

(** [try: body / except Exception as e: handler e] *)
Definition try_except {A : Type} (body : result A) (handler : exn → result A)
  : result A :=
  match body with
  | Ok a => Ok a
  | Raise e => handler e
  end.

Definition is_ok {A : Type} (c : result A) : bool :=
  match c with Ok _ => true | Raise _ => false end.

(** The values.  A [PDict] keeps its items in insertion order and has string
    keys (every dict of the program is a literal with string keys or comes from
    a JSON document).  [PFloat] carries the bit pattern of a double, which
    the program only passes through.  [PObj] is an object of a class with no
    methods of its own: truthy, neither subscriptable nor iterable, and not
    JSON-serializable. *)
Inductive pyval : Type :=
| PNone
| PBool (b : bool)
| PInt (n : Z)
| PFloat (bits : Z)
| PStr (s : string)
| PList (l : list pyval)
| PDict (d : list (string * pyval))
| PObj (id : positive).

Definition type_name (v : pyval) : string :=
  match v with
  | PNone => "NoneType"
  | PBool _ => "bool"
  | PInt _ => "int"
  | PFloat _ => "float"
  | PStr _ => "str"
  | PList _ => "list"
  | PDict _ => "dict"
  | PObj _ => "object"
  end.

Definition AttributeError (v : pyval) (attr : string) : exn :=
  Exn "AttributeError"
      ("'" +:+ type_name v +:+ "' object has no attribute '" +:+ attr +:+ "'").
Definition TypeError (msg : string) : exn := Exn "TypeError" msg.
Definition KeyError (key : string) : exn := Exn "KeyError" ("'" +:+ key +:+ "'").
Definition IndexError (msg : string) : exn := Exn "IndexError" msg.

(** ** Strings *)

Definition ascii_lower (c : ascii) : ascii :=
  let n := nat_of_ascii c in
  if (65 <=? n)%nat && (n <=? 90)%nat then ascii_of_nat (n + 32) else c.

Definition ascii_upper (c : ascii) : ascii :=
  let n := nat_of_ascii c in
  if (97 <=? n)%nat && (n <=? 122)%nat then ascii_of_nat (n - 32) else c.

Fixpoint str_map (f : ascii → ascii) (s : string) : string :=
  match s with
  | EmptyString => EmptyString
  | String c s' => String (f c) (str_map f s')
  end.

(** [s.lower()] and [s.upper()] *)
Definition str_lower : string → string := str_map ascii_lower.
Definition str_upper : string → string := str_map ascii_upper.

Definition chars (s : string) : list ascii := String.list_ascii_of_string s.
Definition of_chars (l : list ascii) : string := String.string_of_list_ascii l.

(** [needle in hay] for two strings *)
Fixpoint is_substring (needle hay : string) : bool :=
  String.prefix needle hay ||
  match hay with
  | EmptyString => false
  | String _ hay' => is_substring needle hay'
  end.

(** ** Truthiness, dictionaries, serializability *)

Definition float_is_zero (bits : Z) : bool :=
  (bits =? 0)%Z || (bits =? 2 ^ 63)%Z.

Definition truthy (v : pyval) : bool :=
  match v with
  | PNone => false
  | PBool b => b
  | PInt n => negb (n =? 0)%Z
  | PFloat bits => negb (float_is_zero bits)
  | PStr s => negb (String.eqb s "")
  | PList l => match l with [] => false | _ => true end
  | PDict d => match d with [] => false | _ => true end
  | PObj _ => true
  end.

Fixpoint assoc_lookup (k : string) (d : list (string * pyval)) : option pyval :=
  match d with
  | [] => None
  | (k', v) :: d' => if String.eqb k k' then Some v else assoc_lookup k d'
  end.

Definition dict_keys (v : pyval) : list string :=
  match v with
  | PDict d => map fst d
  | _ => []
  end.

(** [doc[k]] when [doc] is a dict holding [k] *)
Definition field (doc : pyval) (k : string) : option pyval :=
  match doc with
  | PDict d => assoc_lookup k d
  | _ => None
  end.

(** What [json.dumps] accepts. *)
Fixpoint serializable (v : pyval) : bool :=
  match v with
  | PObj _ => false
  | PList l => forallb serializable l
  | PDict d => forallb (fun kv => serializable (snd kv)) d
  | _ => true
  end.

(** The [str] that [json.dumps] returns is represented by the document it
    encodes. *)
Record json_text := Encoded { decoded : pyval }.

Definition json_dumps (v : pyval) : result json_text :=
  if serializable v then Ok (Encoded v)
  else Raise (TypeError "Object of type object is not JSON serializable").

(** ** Methods, subscripts, slices, iteration *)

Definition isinstance_str (v : pyval) : bool :=
  match v with PStr _ => true | _ => false end.

(** [v.lower()], [v.upper()] *)
Definition method_lower (v : pyval) : result string :=
  match v with
  | PStr s => Ok (str_lower s)
  | _ => Raise (AttributeError v "lower")
  end.

Definition method_upper (v : pyval) : result string :=
  match v with
  | PStr s => Ok (str_upper s)
  | _ => Raise (AttributeError v "upper")
  end.

(** [v.get(key, default)] *)
Definition method_get (v : pyval) (key : string) (default : pyval) : result pyval :=
  match v with
  | PDict d => Ok (match assoc_lookup key d with Some x => x | None => default end)
  | _ => Raise (AttributeError v "get")
  end.

(** [needle in v] for a string [needle] *)
Definition contains_str (needle : string) (v : pyval) : result bool :=
  match v with
  | PDict d => Ok (bool_decide (needle ∈ map fst d))
  | PList l => Ok (existsb (fun x => match x with
                                     | PStr s => String.eqb s needle
                                     | _ => false
                                     end) l)
  | PStr s => Ok (is_substring needle s)
  | _ => Raise (TypeError ("argument of type '" +:+ type_name v +:+ "' is not iterable"))
  end.

(** [v[key]] for a string [key] *)
Definition getitem_str (v : pyval) (key : string) : result pyval :=
  match v with
  | PDict d => match assoc_lookup key d with
               | Some x => Ok x
               | None => Raise (KeyError key)
               end
  | PList _ => Raise (TypeError "list indices must be integers or slices, not str")
  | PStr _ => Raise (TypeError "string indices must be integers, not 'str'")
  | _ => Raise (TypeError ("'" +:+ type_name v +:+ "' object is not subscriptable"))
  end.

(** [v[0]] *)
Definition getitem_0 (v : pyval) : result pyval :=
  match v with
  | PList l => match l with
               | x :: _ => Ok x
               | [] => Raise (IndexError "list index out of range")
               end
  | PStr s => match s with
              | String c _ => Ok (PStr (String c EmptyString))
              | EmptyString => Raise (IndexError "string index out of range")
              end
  | PDict _ => Raise (Exn "KeyError" "0")
  | _ => Raise (TypeError ("'" +:+ type_name v +:+ "' object is not subscriptable"))
  end.

(** The stop of a slice [[:stop]]: an integer (a [bool] is one) or [None]. *)
Definition slice_stop (stop : pyval) : result (option Z) :=
  match stop with
  | PNone => Ok None
  | PInt n => Ok (Some n)
  | PBool b => Ok (Some (if b then 1 else 0)%Z)
  | _ => Raise (TypeError
           "slice indices must be integers or None or have an __index__ method")
  end.

(** [l[:stop]]: a negative stop counts from the end. *)
Definition take_py {A : Type} (stop : option Z) (l : list A) : list A :=
  match stop with
  | None => l
  | Some n => if (0 <=? n)%Z then take (Z.to_nat n) l
              else take (length l - Z.to_nat (- n)) l
  end.

(** [v[:stop]] *)
Definition slice_to (v : pyval) (stop : pyval) : result pyval :=
  match v with
  | PList l => let* n := slice_stop stop in Ok (PList (take_py n l))
  | PStr s => let* n := slice_stop stop in Ok (PStr (of_chars (take_py n (chars s))))
  | PDict _ => Raise (TypeError "unhashable type: 'slice'")
  | _ => Raise (TypeError ("'" +:+ type_name v +:+ "' object is not subscriptable"))
  end.

(** The items a [for] loop over [v] visits. *)
Definition iterate (v : pyval) : result (list pyval) :=
  match v with
  | PList l => Ok l
  | PStr s => Ok (map (fun c => PStr (String c EmptyString)) (chars s))
  | PDict d => Ok (map (fun kv => PStr (fst kv)) d)
  | _ => Raise (TypeError ("'" +:+ type_name v +:+ "' object is not iterable"))
  end.

(** [len(v)] *)
Definition len (v : pyval) : result Z :=
  match v with
  | PList l => Ok (Z.of_nat (length l))
  | PStr s => Ok (Z.of_nat (String.length s))
  | PDict d => Ok (Z.of_nat (length d))
  | _ => Raise (TypeError ("object of type '" +:+ type_name v +:+ "' has no len()"))
  end.

(** [min(n, v)] for an integer [n]: the first argument wins a tie. *)
Definition min_int (n : Z) (v : pyval) : result pyval :=
  match v with
  | PInt m => Ok (PInt (if (m <? n)%Z then m else n))
  | PBool b => let m := (if b then 1 else 0)%Z in
               Ok (if (m <? n)%Z then PBool b else PInt n)
  | _ => Raise (TypeError ("'<' not supported between instances of '"
                           +:+ type_name v +:+ "' and 'int'"))
  end.

(** ** Formatting integers *)

Definition digit (n : N) : ascii := ascii_of_N (48 + n mod 10).

Fixpoint decimal_fuel (fuel : nat) (n : N) (acc : string) : string :=
  match fuel with
  | O => acc
  | S fuel' =>
      let acc' := String (digit n) acc in
      if (n / 10 =? 0)%N then acc' else decimal_fuel fuel' (n / 10) acc'
  end.

(** [str(n)], [f"{n}"] and C's [%d] for a natural number; a number has no
    more decimal digits than bits. *)
Definition decimal (n : N) : string :=
  decimal_fuel (S (N.size_nat n)) n EmptyString.

(** [s.zfill(width)] for a string of digits *)
Definition zfill (width : nat) (s : string) : string :=
  of_chars (replicate (width - String.length s) "0"%char) +:+ s.

Definition is_digit (c : ascii) : bool :=
  (48 <=? N_of_ascii c)%N && (N_of_ascii c <=? 57)%N.

(** [s[:n]] for a string and [n >= 0] *)
Definition str_take (n : nat) (s : string) : string := of_chars (take n (chars s)).

(** A [for] loop whose body may raise: the first exception ends it. *)
Fixpoint for_each {A S : Type} (body : S → A → result S) (items : list A) (acc : S)
  : result S :=
  match items with
  | [] => Ok acc
  | x :: rest => let* acc' := body acc x in for_each body rest acc'
  end.

End Py.

(** * [datetime]: the two formats the booking tool uses *)
Module Clock.
Import Py.

Record datetime := Datetime {
  year : N; month : N; day : N;
  hour : N; minute : N; second : N; microsecond : N
}.

(** The ranges every [datetime] object satisfies ([MINYEAR = 1],
    [MAXYEAR = 9999]). *)
Definition valid (d : datetime) : bool :=
  (1 <=? year d)%N && (year d <=? 9999)%N &&
  (1 <=? month d)%N && (month d <=? 12)%N &&
  (1 <=? day d)%N && (day d <=? 31)%N &&
  (hour d <? 24)%N && (minute d <? 60)%N && (second d <? 60)%N &&
  (microsecond d <? 1000000)%N.

(** [d.strftime('%Y%m%d%H%M%S')]: the C library writes [%Y] as a plain
    decimal and the other fields with two digits. *)
Definition strftime_YmdHMS (d : datetime) : string :=
  decimal (year d) +:+ zfill 2 (decimal (month d)) +:+ zfill 2 (decimal (day d))
  +:+ zfill 2 (decimal (hour d)) +:+ zfill 2 (decimal (minute d))
  +:+ zfill 2 (decimal (second d)).

(** [d.isoformat()] *)
Definition isoformat (d : datetime) : string :=
  zfill 4 (decimal (year d)) +:+ "-" +:+ zfill 2 (decimal (month d)) +:+ "-"
  +:+ zfill 2 (decimal (day d)) +:+ "T" +:+ zfill 2 (decimal (hour d)) +:+ ":"
  +:+ zfill 2 (decimal (minute d)) +:+ ":" +:+ zfill 2 (decimal (second d))
  +:+ (if (microsecond d =? 0)%N then ""
       else "." +:+ zfill 6 (decimal (microsecond d))).

End Clock.

(** * What the tools obtain from outside *)
Module Env.
Import Py.

(** A [requests.Response]: its status and what [response.json()] does. *)
Record response := Response { status_code : Z; json : result pyval }.

(** A file under [data/bookings]: [open(path, "w")] leaves it empty and
    [json.dump] fills it; a dump that raises leaves it incomplete. *)
Inductive file_content : Type :=
| Incomplete
| Complete (doc : pyval).

Record filesystem := Filesystem {
  dirs : gset string;
  files : gmap string file_content
}.

Record World := {
  (** [os.getenv(name)] *)
  getenv : string → option string;
  (** [requests.get(url, headers=headers, params=params, timeout=10)] *)
  requests_get : string → option pyval → pyval → result response;
  (** [requests.post(url, data=data, timeout=10)] *)
  requests_post : string → pyval → result response;
  (** the successive values of [datetime.now()] *)
  now : nat → Clock.datetime;
  (** [json.loads(text)] *)
  json_loads : string → result pyval;
  (** the exception, if any, that [os.makedirs(path, exist_ok=True)] and
      [open(path, "w")] raise *)
  makedirs_error : string → option exn;
  open_error : string → option exn;
  (** [str(v)] of a value that is not a string *)
  str_of : pyval → string
}.

(** [not value] for the result of [os.getenv] *)
Definition unset (value : option string) : bool :=
  match value with
  | None => true
  | Some s => String.eqb s ""
  end.

(** [f"{v}"] *)
Definition format_value (w : World) (v : pyval) : string :=
  match v with
  | PStr s => s
  | _ => str_of w v
  end.

End Env.

(** * [app/Tools/booking_tool.py] *)
Module BookingTool.
Import Py Env.

Definition bookings_dir : string := "data/bookings".

Definition invalid_type_result : pyval :=
  PDict [("success", PBool false);
         ("error", PStr "Invalid booking type. Must be 'flight' or 'hotel'.")].

Definition failure_result (e : exn) : pyval :=
  PDict [("success", PBool false);
         ("error", PStr ("Booking creation failed: " +:+ exn_str e))].

(** Lines 40-45: a string is decoded as JSON, and kept as a description
    when it is not JSON; anything else is used as it is. *)
Definition parse_details (w : World) (booking_details : pyval) : pyval :=
  match booking_details with
  | PStr text =>
      match json_loads w text with
      | Ok v => v
      | Raise _ => PDict [("description", PStr text)]
      end
  | _ => booking_details
  end.

(** Lines 47-64: the reference and the booking object. *)
Definition make_booking (w : World)
  (booking_type booking_details customer_name customer_email : pyval)
  : result (string * pyval) :=
  let timestamp := Clock.strftime_YmdHMS (now w 0) in
  let* upper := method_upper booking_type in
  let booking_ref := str_take 3 upper +:+ "-" +:+ timestamp in
  let* lower := method_lower booking_type in
  Ok (booking_ref,
      PDict [("success", PBool true);
             ("booking_reference", PStr booking_ref);
             ("booking_type", PStr lower);
             ("status", PStr "CONFIRMED");
             ("booking_details", booking_details);
             ("customer_info", PDict [("name", customer_name);
                                      ("email", customer_email)]);
             ("created_at", PStr (Clock.isoformat (now w 1)));
             ("confirmation_message",
              PStr ("Your " +:+ format_value w booking_type
                    +:+ " booking has been confirmed!"))]).

(** [os.path.join(bookings_dir, f"{booking_ref}.json")] *)
Definition booking_file (booking_ref : string) : string :=
  bookings_dir +:+ "/" +:+ booking_ref +:+ ".json".

(** Lines 66-74: the directory, the file, the dump, the returned text. *)
Definition save_booking (w : World) (fs : filesystem)
  (booking_ref : string) (booking : pyval) : filesystem * result json_text :=
  match makedirs_error w bookings_dir with
  | Some e => (fs, Raise e)
  | None =>
      let fs1 := Filesystem ({["data"; bookings_dir]} ∪ dirs fs) (files fs) in
      let booking_file := booking_file booking_ref in
      match open_error w booking_file with
      | Some e => (fs1, Raise e)
      | None =>
          let fs2 := Filesystem (dirs fs1) (<[booking_file := Incomplete]> (files fs1)) in
          match json_dumps booking with
          | Raise e => (fs2, Raise e)
          | Ok text =>
              (Filesystem (dirs fs1) (<[booking_file := Complete booking]> (files fs1)),
               Ok text)
          end
      end
  end.

(** The body of the [try]. *)
Definition create_booking_try (w : World) (fs : filesystem)
  (booking_type booking_details customer_name customer_email : pyval)
  : filesystem * result json_text :=
  match method_lower booking_type with
  | Raise e => (fs, Raise e)
  | Ok lowered =>
      if negb (bool_decide (lowered ∈ ["flight"; "hotel"])) then
        (fs, json_dumps invalid_type_result)
      else
        let booking_details := parse_details w booking_details in
        match make_booking w booking_type booking_details
                           customer_name customer_email with
        | Raise e => (fs, Raise e)
        | Ok (booking_ref, booking) => save_booking w fs booking_ref booking
        end
  end.

Definition create_booking (w : World) (fs : filesystem)
  (booking_type booking_details customer_name customer_email : pyval)
  : filesystem * result json_text :=
  let '(fs', r) := create_booking_try w fs booking_type booking_details
                                      customer_name customer_email in
  (fs', try_except r (fun e => json_dumps (failure_result e))).

End BookingTool.

(** * [app/Tools/flight_search.py] *)
Module FlightSearch.
Import Py Env.

Definition mock_flight (price airline departure_time arrival_time duration : string)
  : pyval :=
  PDict [("price", PStr price); ("airline", PStr airline);
         ("departure_time", PStr departure_time);
         ("arrival_time", PStr arrival_time);
         ("duration", PStr duration); ("layovers", PInt 0)].

Definition mock_flights : list pyval :=
  [mock_flight "$450" "Air India" "10:30 AM" "02:45 PM" "2h 15m";
   mock_flight "$380" "IndiGo" "06:15 AM" "10:30 AM" "2h 15m";
   mock_flight "$520" "Vistara" "03:00 PM" "07:20 PM" "2h 20m";
   mock_flight "$340" "SpiceJet" "11:45 PM" "04:00 AM (+1)" "2h 15m"].

(** Lines 140-149: the [result] of [_get_mock_flight_data]. *)
Definition mock_result (origin destination departure_date return_date : pyval)
  : pyval :=
  let flights := mock_flights in
  PDict [("success", PBool true);
         ("origin", origin);
         ("destination", destination);
         ("departure_date", departure_date);
         ("return_date", return_date);
         ("flights", PList flights);
         ("count", PInt (Z.of_nat (length flights)));
         ("note", PStr "Sample data shown. Configure SERPAPI_KEY for live data.")].

Definition _get_mock_flight_data
  (origin destination departure_date return_date : pyval) : result json_text :=
  json_dumps (mock_result origin destination departure_date return_date).

(** Lines 79-87: the [result] of a live search that found [flights]. *)
Definition live_result (origin destination departure_date return_date : pyval)
  (flights : list pyval) : pyval :=
  PDict [("success", PBool true);
         ("origin", origin);
         ("destination", destination);
         ("departure_date", departure_date);
         ("return_date", return_date);
         ("flights", PList flights);
         ("count", PInt (Z.of_nat (length flights)))].

(** [flight["flights"][0]] *)
Definition first_leg (flight : pyval) : result pyval :=
  let* legs := getitem_str flight "flights" in
  getitem_0 legs.

(** Lines 70-77: the entry appended for one element of [best_flights]; the
    values of the dict display are evaluated from top to bottom. *)
Definition flight_entry (flight : pyval) : result pyval :=
  let* price := method_get flight "price" (PStr "N/A") in
  let* leg := first_leg flight in
  let* airline := method_get leg "airline" (PStr "Unknown") in
  let* leg := first_leg flight in
  let* departure_airport := method_get leg "departure_airport" (PDict []) in
  let* departure_time := method_get departure_airport "time" (PStr "N/A") in
  let* leg := first_leg flight in
  let* arrival_airport := method_get leg "arrival_airport" (PDict []) in
  let* arrival_time := method_get arrival_airport "time" (PStr "N/A") in
  let* duration := method_get flight "total_duration" (PStr "N/A") in
  let* legs := method_get flight "flights" (PList []) in
  let* n := len legs in
  Ok (PDict [("price", price); ("airline", airline);
             ("departure_time", departure_time);
             ("arrival_time", arrival_time);
             ("duration", duration); ("layovers", PInt (n - 1))]).

(** Lines 67-77: [flights] after the loop. *)
Definition extract_flights (data : pyval) : result (list pyval) :=
  let* present := contains_str "best_flights" data in
  if present then
    let* best := getitem_str data "best_flights" in
    let* top := slice_to best (PInt 5) in
    let* items := iterate top in
    for_each (fun flights flight =>
                let* entry := flight_entry flight in Ok (flights ++ [entry]))
             items []
  else Ok [].

Definition search_params (api_key : string)
  (origin destination departure_date return_date : pyval) : pyval :=
  PDict ([("engine", PStr "google_flights");
          ("departure_id", origin);
          ("arrival_id", destination);
          ("outbound_date", departure_date);
          ("api_key", PStr api_key);
          ("currency", PStr "USD");
          ("hl", PStr "en")]
         ++ (if truthy return_date
             then [("return_date", return_date); ("type", PStr "1")]
             else [("type", PStr "2")])).

(** The body of the [try]. *)
Definition search_flights_try (w : World)
  (origin destination departure_date return_date : pyval) : result json_text :=
  let api_key := getenv w "SERPAPI_KEY" in
  if unset api_key then
    _get_mock_flight_data origin destination departure_date return_date
  else
    let params := search_params (default "" api_key)
                    origin destination departure_date return_date in
    let* response := requests_get w "https://serpapi.com/search" None params in
    if (status_code response =? 200)%Z then
      let* data := json response in
      let* flights := extract_flights data in
      json_dumps (live_result origin destination departure_date return_date flights)
    else
      _get_mock_flight_data origin destination departure_date return_date.

Definition failure_result (e : exn) : pyval :=
  PDict [("success", PBool false);
         ("error", PStr ("Flight search failed: " +:+ exn_str e));
         ("message", PStr "Using sample data instead")].

Definition search_flights (w : World)
  (origin destination departure_date return_date : pyval) : result json_text :=
  try_except
    (search_flights_try w origin destination departure_date return_date)
    (fun e => json_dumps (failure_result e)).

End FlightSearch.

(** * [app/Tools/hotel_search.py] *)
Module HotelSearch.
Import Py Env.

Definition mock_hotel (name hotel_id address rating price : string)
  (amenities : list string) : pyval :=
  PDict [("name", PStr name); ("hotel_id", PStr hotel_id);
         ("address", PStr address); ("rating", PStr rating);
         ("price_per_night", PStr price);
         ("amenities", PList (map PStr amenities))].

Definition mock_hotels (w : World) (city : pyval) : list pyval :=
  let city := format_value w city in
  [mock_hotel "Grand Plaza Hotel" "H001" (city +:+ " City Center") "4.5" "$120"
     ["WiFi"; "Pool"; "Gym"; "Restaurant"; "Spa"];
   mock_hotel "City View Inn" "H002" (city +:+ " Downtown") "4.2" "$95"
     ["WiFi"; "Breakfast"; "Parking"; "Airport Shuttle"];
   mock_hotel "Luxury Suites" "H003" (city +:+ " Business District") "4.8" "$180"
     ["WiFi"; "Pool"; "Gym"; "Restaurant"; "Bar"; "Spa"; "Conference Rooms"];
   mock_hotel "Budget Stay Hotel" "H004" (city +:+ " Airport Area") "3.9" "$65"
     ["WiFi"; "Breakfast"; "24/7 Reception"];
   mock_hotel "Boutique Heritage Hotel" "H005" (city +:+ " Old Town") "4.6" "$145"
     ["WiFi"; "Restaurant"; "Rooftop Terrace"; "Heritage Tours"]].

(** Lines 151-160: the [result] of [_get_mock_hotel_data], given the values
    of [hotels[:max_results]] and [min(len(hotels), max_results)]. *)
Definition mock_result (city check_in check_out guests shown count : pyval)
  : pyval :=
  PDict [("success", PBool true);
         ("city", city);
         ("check_in", check_in);
         ("check_out", check_out);
         ("guests", guests);
         ("hotels", shown);
         ("count", count);
         ("note", PStr "Sample data shown. Configure AMADEUS_API_KEY for live data.")].

Definition _get_mock_hotel_data (w : World)
  (city check_in check_out guests max_results : pyval) : result json_text :=
  let hotels := mock_hotels w city in
  let* shown := slice_to (PList hotels) max_results in
  let* count := min_int (Z.of_nat (length hotels)) max_results in
  json_dumps (mock_result city check_in check_out guests shown count).

(** Lines 82-90: the [result] of a live search that listed [hotels]. *)
Definition live_result (city check_in check_out guests : pyval)
  (hotels : list pyval) : pyval :=
  PDict [("success", PBool true);
         ("city", city);
         ("check_in", check_in);
         ("check_out", check_out);
         ("guests", guests);
         ("hotels", PList hotels);
         ("count", PInt (Z.of_nat (length hotels)))].

Definition token_url : string :=
  "https://test.api.amadeus.com/v1/security/oauth2/token".
Definition search_url : string :=
  "https://test.api.amadeus.com/v1/reference-data/locations/hotels/by-city".

(** Lines 73-80: the entry appended for one hotel of the response, when
    [hotels] holds the entries appended so far. *)
Definition hotel_entry (city : pyval) (hotels : list pyval) (hotel : pyval)
  : result pyval :=
  let* name := method_get hotel "name" (PStr "Unknown Hotel") in
  let* hotel_id := method_get hotel "hotelId" (PStr "N/A") in
  let* address := method_get hotel "address" (PDict []) in
  let* city_name := method_get address "cityName" city in
  Ok (PDict [("name", name); ("hotel_id", hotel_id);
             ("address", city_name); ("rating", PStr "4.5");
             ("price_per_night", PStr ("$" +:+ decimal (100 + N.of_nat (length hotels) * 25)));
             ("amenities", PList [PStr "WiFi"; PStr "Pool"; PStr "Gym";
                                  PStr "Restaurant"])]).

(** Lines 70-80: [hotels] after the loop. *)
Definition extract_hotels (city max_results data : pyval) : result (list pyval) :=
  let* listed := method_get data "data" (PList []) in
  let* top := slice_to listed max_results in
  let* items := iterate top in
  for_each (fun hotels hotel =>
              let* entry := hotel_entry city hotels hotel in Ok (hotels ++ [entry]))
           items [].

(** [city[:3].upper() if len(city) == 3 else city]; of a string, [len]
    counts and [upper] maps the 8-bit characters, which are the characters
    Python counts and maps in ASCII text. *)
Definition city_code (city : pyval) : result pyval :=
  let* n := len city in
  if (n =? 3)%Z then
    let* head := slice_to city (PInt 3) in
    let* upper := method_upper head in
    Ok (PStr upper)
  else Ok city.

Definition token_data (api_key api_secret : string) : pyval :=
  PDict [("grant_type", PStr "client_credentials");
         ("client_id", PStr api_key);
         ("client_secret", PStr api_secret)].

Definition auth_headers (w : World) (access_token : pyval) : pyval :=
  PDict [("Authorization", PStr ("Bearer " +:+ format_value w access_token))].

Definition search_params (code : pyval) : pyval :=
  PDict [("cityCode", code); ("radius", PInt 5);
         ("radiusUnit", PStr "KM"); ("hotelSource", PStr "ALL")].

(** The body of the [try]. *)
Definition search_hotels_try (w : World)
  (city check_in check_out guests max_results : pyval) : result json_text :=
  let api_key := getenv w "AMADEUS_API_KEY" in
  let api_secret := getenv w "AMADEUS_API_SECRET" in
  if unset api_key || unset api_secret then
    _get_mock_hotel_data w city check_in check_out guests max_results
  else
    let token_data := token_data (default "" api_key) (default "" api_secret) in
    let* token_response := requests_post w token_url token_data in
    if negb (status_code token_response =? 200)%Z then
      _get_mock_hotel_data w city check_in check_out guests max_results
    else
      let* token_json := json token_response in
      let* access_token := getitem_str token_json "access_token" in
      let headers := auth_headers w access_token in
      let* code := city_code city in
      let params := search_params code in
      let* response := requests_get w search_url (Some headers) params in
      if (status_code response =? 200)%Z then
        let* data := json response in
        let* hotels := extract_hotels city max_results data in
        json_dumps (live_result city check_in check_out guests hotels)
      else
        _get_mock_hotel_data w city check_in check_out guests max_results.

Definition failure_result (e : exn) : pyval :=
  PDict [("success", PBool false);
         ("error", PStr ("Hotel search failed: " +:+ exn_str e));
         ("message", PStr "Using sample data instead")].

Definition search_hotels (w : World)
  (city check_in check_out guests max_results : pyval) : result json_text :=
  try_except
    (search_hotels_try w city check_in check_out guests max_results)
    (fun e => json_dumps (failure_result e)).

End HotelSearch.

(** * The three tools as [@tool] objects

    Line 12 of [booking_tool.py] and [hotel_search.py] and line 13 of
    [flight_search.py] decorate the function with the agent library's
    [@tool]: what the module exports under the function's name is a tool
    object, and running it with named arguments first checks them against
    the function's signature and then calls the function
    ([BookingTool.create_booking], [FlightSearch.search_flights],
    [HotelSearch.search_hotels]).  No handler for a failed check is
    configured, so the tool raises the schema library's [ValidationError].

    An argument of the declared type is passed on as it is; a parameter
    that is not given takes the default of the signature; a required
    argument that is missing, a [None] for a parameter that is not
    [Optional], and a list, a dict or an object are refused.  Whether a
    number or a [bool] is accepted for a [str] parameter, and a numeric
    string, a float or a [bool] for an [int] parameter, depends on the
    version of the schema library: these conversions, and the text of the
    exception, are fields of [Schema]. *)
Module Decorated.
Import Py Env.

(** The annotations of the three signatures: [str], [Optional[str]], [int]. *)
Inductive annotation : Type := Str | OptionalStr | Int.

Record Schema := {
  (** the text a value that is not a string is converted to for a [str]
      parameter, if it is *)
  str_of_scalar : pyval → option string;
  (** the integer a value that is not an [int] is converted to for an
      [int] parameter, if it is *)
  int_of_scalar : pyval → option Z;
  (** [str(e)] of the [ValidationError] of a tool, given its name and the
      arguments of the call *)
  error_text : string → list (option pyval) → string
}.

Definition ValidationError (text : string) : exn := Exn "ValidationError" text.

(** The value an argument is validated to; [None] when it is refused. *)
Definition validate (lib : Schema) (a : annotation) (v : pyval) : option pyval :=
  match v with
  | PStr _ => match a with
              | Int => PInt <$> int_of_scalar lib v
              | Str | OptionalStr => Some v
              end
  | PInt _ => match a with
              | Int => Some v
              | Str | OptionalStr => PStr <$> str_of_scalar lib v
              end
  | PBool _ | PFloat _ =>
      match a with
      | Int => PInt <$> int_of_scalar lib v
      | Str | OptionalStr => PStr <$> str_of_scalar lib v
      end
  | PNone => match a with
             | OptionalStr => Some PNone
             | Str | Int => None
             end
  | PList _ | PDict _ | PObj _ => None
  end.

(** What a parameter with the default [dflt] (none for a required one)
    receives when the call gives [given] for it (nothing when it leaves the
    argument out); [None] when the call is refused. *)
Definition parameter (lib : Schema) (a : annotation) (dflt : option pyval)
  (given : option pyval) : option pyval :=
  match given with
  | Some v => validate lib a v
  | None => dflt
  end.

(** [search_flights(origin: str, destination: str, departure_date: str,
    return_date: Optional[str] = None)] *)
Definition search_flights (lib : Schema) (w : World)
  (origin destination departure_date return_date : option pyval)
  : result json_text :=
  match parameter lib Str None origin, parameter lib Str None destination,
        parameter lib Str None departure_date,
        parameter lib OptionalStr (Some PNone) return_date with
  | Some origin', Some destination', Some departure_date', Some return_date' =>
      FlightSearch.search_flights w origin' destination' departure_date'
                                  return_date'
  | _, _, _, _ =>
      Raise (ValidationError
               (error_text lib "search_flights"
                  [origin; destination; departure_date; return_date]))
  end.

(** [search_hotels(city: str, check_in: str, check_out: str,
    guests: int = 1, max_results: int = 5)] *)
Definition search_hotels (lib : Schema) (w : World)
  (city check_in check_out guests max_results : option pyval)
  : result json_text :=
  match parameter lib Str None city, parameter lib Str None check_in,
        parameter lib Str None check_out,
        parameter lib Int (Some (PInt 1)) guests,
        parameter lib Int (Some (PInt 5)) max_results with
  | Some city', Some check_in', Some check_out', Some guests', Some max_results' =>
      HotelSearch.search_hotels w city' check_in' check_out' guests' max_results'
  | _, _, _, _, _ =>
      Raise (ValidationError
               (error_text lib "search_hotels"
                  [city; check_in; check_out; guests; max_results]))
  end.

(** [create_booking(booking_type: str, booking_details: str,
    customer_name: str, customer_email: str)] *)
Definition create_booking (lib : Schema) (w : World) (fs : filesystem)
  (booking_type booking_details customer_name customer_email : option pyval)
  : filesystem * result json_text :=
  match parameter lib Str None booking_type, parameter lib Str None booking_details,
        parameter lib Str None customer_name,
        parameter lib Str None customer_email with
  | Some booking_type', Some booking_details', Some customer_name',
    Some customer_email' =>
      BookingTool.create_booking w fs booking_type' booking_details'
                                 customer_name' customer_email'
  | _, _, _, _ =>
      (fs, Raise (ValidationError
                    (error_text lib "create_booking"
                       [booking_type; booking_details; customer_name;
                        customer_email])))
  end.

End Decorated.

(** * [app/Tools/utils/memory.py] *)
Module Memory.
Import Py.

(** The message classes of the chat history; the program constructs
    [HumanMessage] and [AIMessage] only. *)
Inductive role : Type := human | ai | tool | system.

Record BaseMessage := Message { type : role; content : pyval }.

Definition HumanMessage (content : pyval) : BaseMessage := Message human content.
Definition AIMessage (content : pyval) : BaseMessage := Message ai content.

Record SimpleMemoryStore := Store { messages : list BaseMessage }.

Definition add_message (self : SimpleMemoryStore) (message : BaseMessage)
  : SimpleMemoryStore :=
  Store (messages self ++ [message]).

Definition clear (self : SimpleMemoryStore) : SimpleMemoryStore := Store [].

Definition messages_list (self : SimpleMemoryStore) : list BaseMessage :=
  messages self.

Record ConversationBufferMemory := BufferMemory {
  memory_key : string;
  return_messages : bool;
  chat_memory : SimpleMemoryStore
}.

Definition create_memory_for_session (session_id : string)
  : ConversationBufferMemory :=
  BufferMemory "chat_history" true (Store []).

End Memory.

(** * [app/agent/travel_agent.py]: the executor's configuration *)
Module TravelAgent.

Record AgentExecutor := Executor {
  tools : list string;
  verbose : bool;
  handle_parsing_errors : bool;
  max_iterations : nat;
  early_stopping_method : string
}.

Definition agent_executor : AgentExecutor :=
  {| tools := ["search_flights"; "search_hotels"; "create_booking"];
     verbose := true;
     handle_parsing_errors := true;
     max_iterations := 10;
     early_stopping_method := "generate" |}.

End TravelAgent.

(** * [app/api/main.py] *)
Module Api.
Import Py Memory.

Record Session := MkSession {
  memory : ConversationBufferMemory;
  created_at : string
}.

Record ChatRequest := MkChatRequest {
  message : string;
  session_id : option string
}.

Record ChatResponse := MkChatResponse {
  response : string;
  response_session_id : string
}.

(** What a handler gives the web framework: a body, or a raised
    [HTTPException(status_code, detail)]. *)
Inductive http (A : Type) : Type :=
| Respond (body : A)
| HTTPException (status_code : Z) (detail : string).
Arguments Respond {A} body.
Arguments HTTPException {A} status_code detail.

Record World := {
  (** [str(uuid.uuid4())] and [uuid.uuid1().time] *)
  uuid4 : string;
  uuid1_time : N;
  (** [agent_executor.invoke({"input": input, "chat_history": history})] *)
  agent_invoke : string → list BaseMessage → result pyval;
  (** the exception, if any, with which the message class refuses a
      [content] that is not a string *)
  content_error : pyval → option exn;
  (** the validation of a value that is not a string for a field declared
      [str] *)
  validate_str : pyval → result string
}.

(** [AIMessage(content=content)] *)
Definition new_AIMessage (w : World) (content : pyval) : result BaseMessage :=
  match content with
  | PStr _ => Ok (AIMessage content)
  | _ => match content_error w content with
         | Some e => Raise e
         | None => Ok (AIMessage content)
         end
  end.

(** [ChatResponse(response=response, session_id=session_id)] *)
Definition new_ChatResponse (w : World) (response : pyval) (session_id : string)
  : result ChatResponse :=
  match response with
  | PStr s => Ok (MkChatResponse s session_id)
  | _ => let* s := validate_str w response in Ok (MkChatResponse s session_id)
  end.

Definition new_session (w : World) (session_id : string) : Session :=
  MkSession (create_memory_for_session session_id) (decimal (uuid1_time w)).

(** [create_session] *)
Definition create_session (w : World) (sessions : gmap string Session)
  : gmap string Session * (string * string) :=
  let session_id := uuid4 w in
  (<[session_id := new_session w session_id]> sessions,
   (session_id,
    "New session created successfully. How can I assist with your travel plans today?")).

(** [request.session_id or str(uuid.uuid4())] *)
Definition turn_session_id (w : World) (request : ChatRequest) : string :=
  match session_id request with
  | Some s => if String.eqb s "" then uuid4 w else s
  | None => uuid4 w
  end.

(** Lines 115-119: the session table after the session was looked up and,
    when absent, created. *)
Definition get_or_create (w : World) (sessions : gmap string Session)
  (session_id : string) : gmap string Session * Session :=
  match sessions !! session_id with
  | Some session => (sessions, session)
  | None => let session := new_session w session_id in
            (<[session_id := session]> sessions, session)
  end.

(** [sessions[session_id]["memory"].chat_memory.add_message(m)]: the store
    is the one object the table refers to, so the table sees the append. *)
Definition append_message (sessions : gmap string Session) (session_id : string)
  (m : BaseMessage) : gmap string Session :=
  match sessions !! session_id with
  | Some session =>
      let memory := memory session in
      <[session_id :=
          MkSession (BufferMemory (memory_key memory) (return_messages memory)
                                  (add_message (chat_memory memory) m))
                    (created_at session)]> sessions
  | None => sessions
  end.

(** The messages of a session; none when there is no such session. *)
Definition history (sessions : gmap string Session) (session_id : string)
  : list BaseMessage :=
  match sessions !! session_id with
  | Some session => messages (chat_memory (memory session))
  | None => []
  end.

(** The body of the [try] of [chat]. *)
Definition chat_try (w : World) (sessions : gmap string Session)
  (request : ChatRequest) : gmap string Session * result ChatResponse :=
  let session_id := turn_session_id w request in
  let '(sessions1, session) := get_or_create w sessions session_id in
  let memory := memory session in
  match agent_invoke w (message request) (messages (chat_memory memory)) with
  | Raise e => (sessions1, Raise e)
  | Ok result =>
      let sessions2 :=
        append_message sessions1 session_id (HumanMessage (PStr (message request))) in
      match (let* output := getitem_str result "output" in new_AIMessage w output) with
      | Raise e => (sessions2, Raise e)
      | Ok reply =>
          let sessions3 := append_message sessions2 session_id reply in
          (sessions3,
           let* output := getitem_str result "output" in
           new_ChatResponse w output session_id)
      end
  end.

Definition chat (w : World) (sessions : gmap string Session)
  (request : ChatRequest) : gmap string Session * http ChatResponse :=
  let '(sessions', r) := chat_try w sessions request in
  (sessions',
   match r with
   | Ok body => Respond body
   | Raise e => HTTPException 500 ("Error processing request: " +:+ exn_str e)
   end).

(** [delete_session] *)
Definition delete_session (sessions : gmap string Session) (session_id : string)
  : gmap string Session * http (string * string) :=
  match sessions !! session_id with
  | Some _ => (delete session_id sessions,
               Respond ("Session deleted successfully", session_id))
  | None => (sessions, HTTPException 404 "Session not found")
  end.

(** [list_sessions] *)
Definition list_sessions (sessions : gmap string Session) : nat * list string :=
  (size sessions, map fst (map_to_list sessions)).

(** A sequence of chat turns, each with the outside world it meets. *)
Fixpoint chat_turns (turns : list (World * ChatRequest))
  (sessions : gmap string Session)
  : gmap string Session * list (http ChatResponse) :=
  match turns with
  | [] => (sessions, [])
  | (w, request) :: rest =>
      let '(sessions1, r) := chat w sessions request in
      let '(sessions2, rs) := chat_turns rest sessions1 in
      (sessions2, r :: rs)
  end.

End Api.

(** * The notions the properties of the session API are stated with *)
Module ApiTerms.
Import Py Memory Api.

(** A turn is addressed to the session whose id it resolves to. *)
Definition addressed (sid : string) (turn : World * ChatRequest) : bool :=
  bool_decide (turn_session_id turn.1 turn.2 = sid).

Definition successful (r : http ChatResponse) : bool :=
  match r with
  | Respond _ => true
  | HTTPException _ _ => false
  end.

(** The messages [n] exchanges leave: the user's text, then the reply. *)
Definition exchanges (turns : list (string * pyval)) : list BaseMessage :=
  flat_map (fun t => [HumanMessage (PStr t.1); AIMessage t.2]) turns.

(** Whether every turn addressed to [sid] got a response. *)
Definition addressed_turns_succeed (sid : string)
  (turns : list (World * ChatRequest)) (responses : list (http ChatResponse))
  : bool :=
  forallb (fun tr => implb (addressed sid tr.1) (successful tr.2))
          (zip turns responses).

(** The user messages of the turns addressed to [sid], in order. *)
Definition user_messages (sid : string) (turns : list (World * ChatRequest))
  : list string :=
  map (fun turn => message turn.2) (List.filter (addressed sid) turns).

(** A world whose executor answers [reply], and one whose reasoning
    model cannot be reached. *)
Definition answering (reply : string) : World :=
  {| uuid4 := "1b4e28ba-2fa1-4d3b-a3f5-ef19b5a7633b";
     uuid1_time := 139000000;
     agent_invoke := fun _ _ => Ok (PDict [("input", PStr "");
                                           ("output", PStr reply)]);
     content_error := fun _ => None;
     validate_str := fun _ =>
       Raise (Exn "ValidationError" "Input should be a valid string") |}.

Definition unreachable : World :=
  {| uuid4 := "1b4e28ba-2fa1-4d3b-a3f5-ef19b5a7633b";
     uuid1_time := 139000000;
     agent_invoke := fun _ _ => Raise (Exn "APIConnectionError" "Connection error.");
     content_error := fun _ => None;
     validate_str := fun _ =>
       Raise (Exn "ValidationError" "Input should be a valid string") |}.

(** Two answered turns of session "s1" around a failed turn of "s2". *)
Definition demo_turns : list (World * ChatRequest) :=
  [(answering "Where would you like to go?", MkChatRequest "hello" (Some "s1"));
   (unreachable, MkChatRequest "find hotels in Paris" (Some "s2"));
   (answering "I found 4 flights.",
    MkChatRequest "find flights from JFK to CDG on 2025-06-01" (Some "s1"))].

Definition demo_sessions : gmap string Session :=
  <["s1" := new_session unreachable "s1"]> ∅.

End ApiTerms.

(** * The notions the properties of the tools are stated with *)
Module ToolTerms.
Import Py Env BookingTool.


(** [re.fullmatch(prefix + r"\d{14}", s)] for a literal [prefix]. *)
Definition matches_reference (prefix s : string) : bool :=
  String.prefix prefix s
  && (let digits := drop (String.length prefix) (chars s) in
      (length digits =? 14)%nat && forallb is_digit digits).

(** The reference of a booking made in world [w]. *)
Definition reference (w : World) (booking_type : string) : string :=
  str_take 3 (str_upper booking_type) +:+ "-" +:+ Clock.strftime_YmdHMS (now w 0).

Definition valid_type (booking_type : string) : Prop :=
  str_lower booking_type = "flight" ∨ str_lower booking_type = "hotel".

(** The paths of [create_booking]: every one returns a text. *)
Inductive booking_outcome (w : World) (fs : filesystem)
  (booking_type booking_details customer_name customer_email : pyval)
  : filesystem → pyval → Prop :=
| rejected_type (e : exn) :
    method_lower booking_type = Raise e →
    booking_outcome w fs booking_type booking_details customer_name customer_email
      fs (failure_result e)
| invalid_type (type : string) :
    booking_type = PStr type → ¬ valid_type type →
    booking_outcome w fs booking_type booking_details customer_name customer_email
      fs invalid_type_result
| directory_refused (type : string) (e : exn) :
    booking_type = PStr type → valid_type type →
    makedirs_error w bookings_dir = Some e →
    booking_outcome w fs booking_type booking_details customer_name customer_email
      fs (failure_result e)
| file_refused (type : string) (e : exn) :
    booking_type = PStr type → valid_type type →
    makedirs_error w bookings_dir = None →
    open_error w (booking_file (reference w type)) = Some e →
    booking_outcome w fs booking_type booking_details customer_name customer_email
      (Filesystem ({["data"; bookings_dir]} ∪ dirs fs) (files fs))
      (failure_result e)
| dump_refused (type : string) (booking : pyval) (e : exn) :
    booking_type = PStr type → valid_type type →
    make_booking w booking_type (parse_details w booking_details)
                 customer_name customer_email
      = Ok (reference w type, booking) →
    json_dumps booking = Raise e →
    makedirs_error w bookings_dir = None →
    open_error w (booking_file (reference w type)) = None →
    booking_outcome w fs booking_type booking_details customer_name customer_email
      (Filesystem ({["data"; bookings_dir]} ∪ dirs fs)
                  (<[booking_file (reference w type) := Incomplete]> (files fs)))
      (failure_result e)
| saved (type : string) (booking : pyval) :
    booking_type = PStr type → valid_type type →
    make_booking w booking_type (parse_details w booking_details)
                 customer_name customer_email
      = Ok (reference w type, booking) →
    serializable booking = true →
    makedirs_error w bookings_dir = None →
    open_error w (booking_file (reference w type)) = None →
    booking_outcome w fs booking_type booking_details customer_name customer_email
      (Filesystem ({["data"; bookings_dir]} ∪ dirs fs)
                  (<[booking_file (reference w type) := Complete booking]> (files fs)))
      booking.

(** A world without credentials and without network, whose clock shows
    2025-06-01 12:30:45 and whose JSON decoder knows the three literals. *)
Definition demo_now : Clock.datetime := Clock.Datetime 2025 6 1 12 30 45 123456.

Definition demo_json_loads (text : string) : result pyval :=
  if String.eqb text "null" then Ok PNone
  else if String.eqb text "true" then Ok (PBool true)
  else if String.eqb text "false" then Ok (PBool false)
  else Raise (Exn "JSONDecodeError" "Expecting value: line 1 column 1 (char 0)").

Definition demo_world : World :=
  {| getenv := fun _ => None;
     requests_get := fun _ _ _ => Raise (Exn "ConnectionError" "Connection refused");
     requests_post := fun _ _ => Raise (Exn "ConnectionError" "Connection refused");
     now := fun _ => demo_now;
     json_loads := demo_json_loads;
     makedirs_error := fun _ => None;
     open_error := fun _ => None;
     str_of := fun _ => "<object>" |}.

Definition empty_fs : filesystem := Filesystem ∅ ∅.

(** The field names of an entry of [flights] and of [hotels]. *)
Definition flight_fields : list string :=
  ["price"; "airline"; "departure_time"; "arrival_time"; "duration"; "layovers"].
Definition hotel_fields : list string :=
  ["name"; "hotel_id"; "address"; "rating"; "price_per_night"; "amenities"].

Definition has_fields (fields : list string) (entries : list pyval) : Prop :=
  Forall (fun entry => dict_keys entry = fields) entries.

(** When [search_flights] falls back: no key, or an answer whose status is
    not 200. *)
Definition flights_fall_back (w : World)
  (origin destination departure_date return_date : pyval) : Prop :=
  unset (getenv w "SERPAPI_KEY") = true
  ∨ (unset (getenv w "SERPAPI_KEY") = false
     ∧ ∃ response,
         requests_get w "https://serpapi.com/search" None
           (FlightSearch.search_params (default "" (getenv w "SERPAPI_KEY"))
              origin destination departure_date return_date) = Ok response
         ∧ status_code response ≠ 200%Z).

(** The three kinds of document [search_flights] returns. *)
Inductive flights_outcome (w : World)
  (origin destination departure_date return_date : pyval) : pyval → Prop :=
| flights_mock :
    flights_fall_back w origin destination departure_date return_date →
    flights_outcome w origin destination departure_date return_date
      (FlightSearch.mock_result origin destination departure_date return_date)
| flights_live (flights : list pyval) :
    has_fields flight_fields flights →
    flights_outcome w origin destination departure_date return_date
      (FlightSearch.live_result origin destination departure_date return_date flights)
| flights_failed (e : exn) :
    FlightSearch.search_flights_try w origin destination departure_date return_date
      = Raise e →
    flights_outcome w origin destination departure_date return_date
      (FlightSearch.failure_result e).

(** When [search_hotels] falls back: a credential is missing, or the token
    request or the search request is answered with a status that is not 200. *)
Inductive hotels_fall_back (w : World) (city : pyval) : Prop :=
| no_credentials :
    unset (getenv w "AMADEUS_API_KEY") || unset (getenv w "AMADEUS_API_SECRET")
      = true →
    hotels_fall_back w city
| token_refused (token_response : response) :
    unset (getenv w "AMADEUS_API_KEY") || unset (getenv w "AMADEUS_API_SECRET")
      = false →
    requests_post w HotelSearch.token_url
      (HotelSearch.token_data (default "" (getenv w "AMADEUS_API_KEY"))
                              (default "" (getenv w "AMADEUS_API_SECRET")))
      = Ok token_response →
    status_code token_response ≠ 200%Z →
    hotels_fall_back w city
| search_refused (token_response : response) (token_json access_token code : pyval)
    (response : response) :
    unset (getenv w "AMADEUS_API_KEY") || unset (getenv w "AMADEUS_API_SECRET")
      = false →
    requests_post w HotelSearch.token_url
      (HotelSearch.token_data (default "" (getenv w "AMADEUS_API_KEY"))
                              (default "" (getenv w "AMADEUS_API_SECRET")))
      = Ok token_response →
    status_code token_response = 200%Z →
    json token_response = Ok token_json →
    getitem_str token_json "access_token" = Ok access_token →
    HotelSearch.city_code city = Ok code →
    requests_get w HotelSearch.search_url
      (Some (HotelSearch.auth_headers w access_token))
      (HotelSearch.search_params code) = Ok response →
    status_code response ≠ 200%Z →
    hotels_fall_back w city.

(** The three kinds of document [search_hotels] returns. *)
Inductive hotels_outcome (w : World)
  (city check_in check_out guests max_results : pyval) : pyval → Prop :=
| hotels_mock (shown count : pyval) :
    hotels_fall_back w city →
    slice_to (PList (HotelSearch.mock_hotels w city)) max_results = Ok shown →
    min_int (Z.of_nat (length (HotelSearch.mock_hotels w city))) max_results
      = Ok count →
    hotels_outcome w city check_in check_out guests max_results
      (HotelSearch.mock_result city check_in check_out guests shown count)
| hotels_live (hotels : list pyval) :
    has_fields hotel_fields hotels →
    hotels_outcome w city check_in check_out guests max_results
      (HotelSearch.live_result city check_in check_out guests hotels)
| hotels_failed (e : exn) :
    HotelSearch.search_hotels_try w city check_in check_out guests max_results
      = Raise e →
    hotels_outcome w city check_in check_out guests max_results
      (HotelSearch.failure_result e).

(** The top-level field names of a live flight and hotel result. *)
Definition flight_result_fields : list string :=
  ["success"; "origin"; "destination"; "departure_date"; "return_date";
   "flights"; "count"].
Definition hotel_result_fields : list string :=
  ["success"; "city"; "check_in"; "check_out"; "guests"; "hotels"; "count"].

(** A live result: the fields [fields], [success:true], and under
    [list_field] a list of entries with the fields [entry_fields]. *)
Definition live_shape (fields entry_fields : list string) (list_field : string)
  (doc : pyval) : Prop :=
  dict_keys doc = fields
  ∧ field doc "success" = Some (PBool true)
  ∧ ∃ entries, field doc list_field = Some (PList entries)
               ∧ has_fields entry_fields entries.

(** A mock result: the fields of a live result and a [note] string; there is
    no [source] field. *)
Definition mock_shape (fields entry_fields : list string) (list_field : string)
  (doc : pyval) : Prop :=
  dict_keys doc = fields ++ ["note"]
  ∧ field doc "success" = Some (PBool true)
  ∧ (∃ note, field doc "note" = Some (PStr note))
  ∧ field doc "source" = None
  ∧ ∃ entries, field doc list_field = Some (PList entries)
               ∧ has_fields entry_fields entries.

(** A world with credentials whose providers answer every request with
    status 429. *)
Definition throttled_world : World :=
  {| getenv := fun _ => Some "secret";
     requests_get := fun _ _ _ =>
       Ok (Response 429 (Raise (Exn "JSONDecodeError" "Expecting value")));
     requests_post := fun _ _ =>
       Ok (Response 429 (Raise (Exn "JSONDecodeError" "Expecting value")));
     now := fun _ => demo_now;
     json_loads := demo_json_loads;
     makedirs_error := fun _ => None;
     open_error := fun _ => None;
     str_of := fun _ => "<object>" |}.

(** An optional [return_date] argument. *)
Definition optional_date (date : option string) : pyval :=
  from_option PStr PNone date.

End ToolTerms.

(** * Further worlds the properties are tried on *)
Module ApiCases.
Import Py Memory Api ApiTerms.

(** A world whose executor returns a result without an [output] entry. *)
Definition silent : World :=
  {| uuid4 := "1b4e28ba-2fa1-4d3b-a3f5-ef19b5a7633b";
     uuid1_time := 139000000;
     agent_invoke := fun _ _ => Ok (PDict [("input", PStr "hello")]);
     content_error := fun _ => None;
     validate_str := fun _ =>
       Raise (Exn "ValidationError" "Input should be a valid string") |}.

(** A table with one session that holds an earlier exchange. *)
Definition used_sessions : gmap string Session :=
  (chat (answering "Where would you like to go?") ∅
        (MkChatRequest "hello" (Some "s1"))).1.

End ApiCases.

(** * Further notions and worlds for the tools *)
Module ToolCases.
Import Py Env BookingTool ToolTerms.

(** Two clock readings within the same second. *)
Definition same_second (d1 d2 : Clock.datetime) : Prop :=
  Clock.year d1 = Clock.year d2 ∧ Clock.month d1 = Clock.month d2
  ∧ Clock.day d1 = Clock.day d2 ∧ Clock.hour d1 = Clock.hour d2
  ∧ Clock.minute d1 = Clock.minute d2 ∧ Clock.second d1 = Clock.second d2.

(** A clock reading of a four-digit year. *)
Definition four_digit_year (d : Clock.datetime) : Prop :=
  Clock.valid d = true ∧ (1000 ≤ Clock.year d)%N.

(** The world [demo_world] half a second later. *)
Definition demo_world_later : World :=
  {| getenv := getenv demo_world;
     requests_get := requests_get demo_world;
     requests_post := requests_post demo_world;
     now := fun _ => Clock.Datetime 2025 6 1 12 30 45 623456;
     json_loads := json_loads demo_world;
     makedirs_error := makedirs_error demo_world;
     open_error := open_error demo_world;
     str_of := str_of demo_world |}.

(** The world [demo_world] a second later. *)
Definition demo_world_next : World :=
  {| getenv := getenv demo_world;
     requests_get := requests_get demo_world;
     requests_post := requests_post demo_world;
     now := fun _ => Clock.Datetime 2025 6 1 12 30 46 123456;
     json_loads := json_loads demo_world;
     makedirs_error := makedirs_error demo_world;
     open_error := open_error demo_world;
     str_of := str_of demo_world |}.

(** A world with credentials whose provider grants a token and answers
    every search with status 200 and the JSON body [data]. *)
Definition live_world (data : pyval) : World :=
  {| getenv := fun _ => Some "secret";
     requests_get := fun _ _ _ => Ok (Response 200 (Ok data));
     requests_post := fun _ _ => Ok (Response 200 (Ok (PDict [("access_token", PStr "t")])));
     now := fun _ => demo_now;
     json_loads := demo_json_loads;
     makedirs_error := fun _ => None;
     open_error := fun _ => None;
     str_of := fun _ => "<object>" |}.

(** A world with credentials whose provider cannot be reached. *)
Definition offline_world : World :=
  {| getenv := fun _ => Some "secret";
     requests_get := fun _ _ _ => Raise (Exn "ConnectTimeout" "timed out");
     requests_post := fun _ _ => Raise (Exn "ConnectTimeout" "timed out");
     now := fun _ => demo_now;
     json_loads := demo_json_loads;
     makedirs_error := fun _ => None;
     open_error := fun _ => None;
     str_of := fun _ => "<object>" |}.

(** A flight as the provider describes it, with [legs] legs. *)
Definition sample_flight (legs : nat) : pyval :=
  PDict [("price", PInt 450);
         ("total_duration", PInt 480);
         ("flights",
          PList (replicate legs
                   (PDict [("airline", PStr "Air France");
                           ("departure_airport", PDict [("time", PStr "10:30")]);
                           ("arrival_airport", PDict [("time", PStr "18:30")])])))].

Definition seven_flights : pyval :=
  PDict [("best_flights", PList (replicate 7 (sample_flight 2)))].

(** An answer whose second flight has no [flights] entry. *)
Definition broken_flights : pyval :=
  PDict [("best_flights",
          PList [sample_flight 1; PDict [("price", PInt 300)]; sample_flight 2])].

(** A hotel as the provider describes it. *)
Definition sample_hotel (name : string) : pyval :=
  PDict [("name", PStr name); ("hotelId", PStr "HLPAR001");
         ("address", PDict [("cityName", PStr "PARIS")])].

Definition seven_hotels : pyval :=
  PDict [("data", PList (replicate 7 (sample_hotel "Hotel Lutetia")))].

(** The price of the live hotel entry at position [i]. *)
Definition position_price (i : nat) : pyval :=
  PStr ("$" +:+ decimal (100 + N.of_nat i * 25)).

(** A count of layovers that is not negative. *)
Definition counts_layovers (entry : pyval) : Prop :=
  ∃ n, (0 ≤ n)%Z ∧ field entry "layovers" = Some (PInt n).

(** A world with credentials whose provider grants a token and then
    cannot be reached for the search. *)
Definition token_only_world : World :=
  {| getenv := fun _ => Some "secret";
     requests_get := fun _ _ _ => Raise (Exn "ReadTimeout" "read timed out");
     requests_post := fun _ _ =>
       Ok (Response 200 (Ok (PDict [("access_token", PStr "t")])));
     now := fun _ => demo_now;
     json_loads := demo_json_loads;
     makedirs_error := fun _ => None;
     open_error := fun _ => None;
     str_of := fun _ => "<object>" |}.

(** A text of ASCII characters: for such a text the 8-bit characters are
    the characters Python counts, and [upper] maps what Python maps. *)
Definition ascii_only (s : string) : bool :=
  forallb (fun c => (N_of_ascii c <? 128)%N) (chars s).

End ToolCases.

(** * The notions the boundary of the tools is stated with *)
Module BoundaryTerms.
Import Py Env Decorated ToolTerms.










End BoundaryTerms.

(** * Properties of the session API *)
Module ApiProps.
Import Py Memory Api ApiTerms.

Lemma history_get_or_create w (sessions : gmap string Session) sid :
  let '(sessions1, session) := get_or_create w sessions sid in
  sessions1 !! sid = Some session
  ∧ messages (chat_memory (memory session)) = history sessions sid
  ∧ (∀ sid', history sessions1 sid' = history sessions sid')
  ∧ (∀ sid', sid' ≠ sid → sessions1 !! sid' = sessions !! sid')
  ∧ (is_Some (sessions !! sid) → sessions1 = sessions).
Proof.
  unfold get_or_create, history.
  destruct (sessions !! sid) as [session|] eqn:Hs.
  - rewrite Hs. repeat split; auto.
  - rewrite lookup_insert_eq. repeat split; auto.
    + intros sid'. destruct (decide (sid' = sid)) as [->|Hne].
      * rewrite lookup_insert_eq, Hs. reflexivity.
      * rewrite lookup_insert_ne by congruence. reflexivity.
    + intros sid' Hne. rewrite lookup_insert_ne by congruence. reflexivity.
    + intros [x Hx]. discriminate.
Qed.

Lemma history_append_eq (sessions : gmap string Session) sid m :
  is_Some (sessions !! sid) →
  history (append_message sessions sid m) sid = history sessions sid ++ [m]
  ∧ is_Some (append_message sessions sid m !! sid).
Proof.
  intros [session Hs]. unfold history, append_message. rewrite Hs.
  rewrite lookup_insert_eq. split; [reflexivity | eauto].
Qed.

Lemma lookup_append_ne (sessions : gmap string Session) sid sid' m :
  sid' ≠ sid → append_message sessions sid m !! sid' = sessions !! sid'.
Proof.
  intros Hne. unfold append_message.
  destruct (sessions !! sid); [|reflexivity].
  rewrite lookup_insert_ne by congruence. reflexivity.
Qed.

Lemma history_append_ne (sessions : gmap string Session) sid sid' m :
  sid' ≠ sid → history (append_message sessions sid m) sid' = history sessions sid'.
Proof.
  intros Hne. unfold history. rewrite lookup_append_ne by assumption. reflexivity.
Qed.

(** When the executor raises, [chat] raises the one [HTTPException] that
    wraps it, and the table is the one [get_or_create] left. *)
Lemma chat_invoke_raises w (sessions : gmap string Session) request e :
  agent_invoke w (message request)
    (history sessions (turn_session_id w request)) = Raise e →
  chat w sessions request =
    ((get_or_create w sessions (turn_session_id w request)).1,
     HTTPException 500 ("Error processing request: " +:+ exn_str e)).
Proof.
  intros Hraise. unfold chat, chat_try.
  pose proof (history_get_or_create w sessions (turn_session_id w request)) as Hg.
  destruct (get_or_create w sessions (turn_session_id w request))
    as [sessions1 session].
  destruct Hg as (_ & Hm & _). rewrite Hm, Hraise. reflexivity.
Qed.

(** A turn that responds appended the user's message and the reply to its
    session, in this order, and touched no other session. *)
Lemma chat_responds w (sessions sessions' : gmap string Session) request body :
  chat w sessions request = (sessions', Respond body) →
  ∃ output,
    history sessions' (turn_session_id w request) =
      history sessions (turn_session_id w request)
      ++ [HumanMessage (PStr (message request)); AIMessage output]
    ∧ ∀ sid', sid' ≠ turn_session_id w request →
              history sessions' sid' = history sessions sid'.
Proof.
  unfold chat, chat_try.
  pose proof (history_get_or_create w sessions (turn_session_id w request)) as Hg.
  destruct (get_or_create w sessions (turn_session_id w request))
    as [sessions1 session].
  destruct Hg as (Hin & Hm & Hall & _).
  set (sid := turn_session_id w request) in *.
  destruct (agent_invoke w (message request) _) as [result|e]; [|discriminate].
  destruct (getitem_str result "output") as [output|e] eqn:Hout;
    simpl; [|discriminate].
  assert (∀ reply, new_AIMessage w output = Ok reply → reply = AIMessage output)
    as Hreply.
  { intros reply. unfold new_AIMessage.
    destruct output; try (destruct (content_error w _)); congruence. }
  destruct (new_AIMessage w output) as [reply|e] eqn:Hnew; [|discriminate].
  rewrite (Hreply reply eq_refl).
  destruct (new_ChatResponse w output sid); [|discriminate].
  intros [= <- _]. exists output. split.
  - destruct (history_append_eq sessions1 sid (HumanMessage (PStr (message request))))
      as [H1 H1']; [eauto|].
    destruct (history_append_eq _ sid (AIMessage output) H1') as [H2 _].
    rewrite H2, H1, Hall, <- app_assoc. reflexivity.
  - intros sid' Hne. rewrite !history_append_ne by assumption. apply Hall.
Qed.

(** A turn leaves the sessions it is not addressed to as they were. *)
Lemma chat_other_sessions w (sessions : gmap string Session) request sid' :
  sid' ≠ turn_session_id w request →
  history (chat w sessions request).1 sid' = history sessions sid'.
Proof.
  intros Hne. unfold chat, chat_try.
  pose proof (history_get_or_create w sessions (turn_session_id w request)) as Hg.
  destruct (get_or_create w sessions (turn_session_id w request))
    as [sessions1 session].
  destruct Hg as (_ & _ & Hall & _).
  destruct (agent_invoke w (message request) _) as [result|e]; simpl; [|apply Hall].
  destruct (bind (getitem_str result "output") _); simpl;
    rewrite ?history_append_ne by assumption; apply Hall.
Qed.

Lemma exchanges_length (l : list (string * pyval)) :
  length (exchanges l) = 2 * length l.
Proof. induction l as [|x l IH]; simpl; [reflexivity | rewrite IH; lia]. Qed.

Lemma exchanges_roles (l : list (string * pyval)) (i : nat) (m : BaseMessage) :
  exchanges l !! i = Some m → type m = if Nat.even i then human else ai.
Proof.
  revert i. induction l as [|x l IH]; intros i; [discriminate|].
  destruct i as [|[|i]]; simpl.
  - intros [= <-]. reflexivity.
  - intros [= <-]. reflexivity.
  - apply IH.
Qed.

Lemma chat_turns_history (sid : string) (turns : list (World * ChatRequest)) :
  ∀ (sessions sessions' : gmap string Session) responses,
    chat_turns turns sessions = (sessions', responses) →
    addressed_turns_succeed sid turns responses = true →
    ∃ outputs,
      length outputs = length (user_messages sid turns)
      ∧ history sessions' sid =
          history sessions sid ++ exchanges (zip (user_messages sid turns) outputs).
Proof.
  induction turns as [|[w request] rest IH]; intros sessions sessions' responses.
  - intros [= <- _] _. exists []. rewrite app_nil_r. split; reflexivity.
  - simpl. destruct (chat w sessions request) as [sessions1 r] eqn:Hchat.
    destruct (chat_turns rest sessions1) as [sessions2 rs] eqn:Hrest.
    intros [= <- <-]. unfold addressed_turns_succeed. simpl.
    intros [Hhead Htail]%andb_prop.
    destruct (IH _ _ _ Hrest Htail) as (outputs & Hlen & Hhist).
    unfold user_messages in *. simpl.
    destruct (addressed sid (w, request)) eqn:Haddr; simpl in *.
    + destruct r as [body|]; [|discriminate].
      apply bool_decide_eq_true in Haddr. simpl in Haddr. subst sid.
      destruct (chat_responds _ _ _ _ _ Hchat) as (output & Hturn & _).
      exists (output :: outputs). split; [simpl; congruence|].
      rewrite Hhist, Hturn, <- app_assoc. reflexivity.
    + apply bool_decide_eq_false in Haddr. simpl in Haddr.
      exists outputs. split; [assumption|].
      rewrite Hhist. f_equal.
      pose proof (chat_other_sessions w sessions request sid) as Hother.
      rewrite Hchat in Hother. apply Hother. congruence.
Qed.

(** C2: a session that starts with no messages holds, after a sequence of
    chat turns in which each of the [n] turns addressed to it was answered,
    exactly [2 * n] messages: for each of these turns the user's message and
    then the assistant's reply, in the order of the turns; the messages at even
    positions are the users' and those at odd positions the assistant's, so no
    tool or scratch message is among them.  Turns addressed to other sessions
    may be interleaved and may fail. *)
Theorem memory_after_successful_turns (sid : string)
  (turns : list (World * ChatRequest))
  (sessions sessions' : gmap string Session)
  (responses : list (http ChatResponse)) :
  history sessions sid = [] →
  chat_turns turns sessions = (sessions', responses) →
  addressed_turns_succeed sid turns responses = true →
  length (history sessions' sid) = 2 * length (user_messages sid turns)
  ∧ (∃ outputs,
       length outputs = length (user_messages sid turns)
       ∧ history sessions' sid = exchanges (zip (user_messages sid turns) outputs))
  ∧ (∀ i m, history sessions' sid !! i = Some m →
            type m = if Nat.even i then human else ai).
Proof.
  intros Hempty Hrun Hok.
  destruct (chat_turns_history sid turns _ _ _ Hrun Hok) as (outputs & Hlen & Hhist).
  rewrite Hempty in Hhist. simpl in Hhist.
  split; [|split].
  - rewrite Hhist, exchanges_length, length_zip. lia.
  - exists outputs. split; assumption.
  - intros i m. rewrite Hhist. apply exchanges_roles.
Qed.

(** C7: when the executor raises during a turn, [chat] raises exactly the
    [HTTPException] with status 500 that wraps this exception, and every
    session has the messages it had (a session created for the turn is left
    empty; the other entries of the table and, when the session existed, the
    whole table are unchanged).  When [chat] responds, the turn's session has
    gained the user's message and the reply, in this order. *)
Theorem chat_turn_atomic (w : World) (sessions : gmap string Session)
  (request : ChatRequest) :
  let sid := turn_session_id w request in
  (∀ e, agent_invoke w (message request) (history sessions sid) = Raise e →
     ∃ sessions',
       chat w sessions request =
         (sessions', HTTPException 500 ("Error processing request: " +:+ exn_str e))
       ∧ (∀ sid', history sessions' sid' = history sessions sid')
       ∧ (∀ sid', sid' ≠ sid → sessions' !! sid' = sessions !! sid')
       ∧ (is_Some (sessions !! sid) → sessions' = sessions))
  ∧ (∀ sessions' body,
       chat w sessions request = (sessions', Respond body) →
       ∃ output,
         history sessions' sid =
           history sessions sid
           ++ [HumanMessage (PStr (message request)); AIMessage output]).
Proof.
  intros sid. subst sid. split.
  - intros e Hraise. eexists. split; [apply chat_invoke_raises, Hraise|].
    pose proof (history_get_or_create w sessions (turn_session_id w request)) as Hg.
    destruct (get_or_create w sessions (turn_session_id w request))
      as [sessions1 session].
    destruct Hg as (_ & _ & Hall & Hother & Hsame). simpl. auto.
  - intros sessions' body Hchat.
    destruct (chat_responds _ _ _ _ _ Hchat) as (output & Hturn & _). eauto.
Qed.

(** C9: deleting a session that is present succeeds and removes it from the
    table, so that deleting it again raises the 404 "Session not found";
    deleting a session that is absent raises this exception and leaves the
    table as it was. *)
Theorem delete_session_twice (sessions : gmap string Session) (sid : string) :
  match sessions !! sid with
  | Some _ =>
      delete_session sessions sid =
        (delete sid sessions, Respond ("Session deleted successfully", sid))
      ∧ delete sid sessions !! sid = None
      ∧ delete_session (delete_session sessions sid).1 sid =
          (delete sid sessions, HTTPException 404 "Session not found")
  | None =>
      delete_session sessions sid =
        (sessions, HTTPException 404 "Session not found")
  end.
Proof.
  destruct (sessions !! sid) as [session|] eqn:Hs;
    unfold delete_session; rewrite Hs; [|reflexivity].
  simpl. rewrite lookup_delete_eq. auto.
Qed.

Lemma memory_after_successful_turns_witness :
  length (history (chat_turns demo_turns ∅).1 "s1") = 4.
Proof.
  apply (memory_after_successful_turns "s1" demo_turns ∅ _
           (chat_turns demo_turns ∅).2); [reflexivity | | reflexivity].
  apply surjective_pairing.
Defined.

Lemma chat_turn_atomic_witness :
  ∃ sessions',
    chat unreachable ∅ (MkChatRequest "hello" (Some "s1"))
      = (sessions', HTTPException 500 "Error processing request: Connection error.")
    ∧ history sessions' "s1" = [].
Proof.
  destruct (chat_turn_atomic unreachable ∅ (MkChatRequest "hello" (Some "s1")))
    as [Hfail _].
  destruct (Hfail (Exn "APIConnectionError" "Connection error.") eq_refl)
    as (sessions' & Hchat & Hhistory & _).
  exists sessions'. split; [exact Hchat | apply Hhistory].
Defined.

Lemma delete_session_twice_witness :
  (delete_session demo_sessions "s1").2
    = Respond ("Session deleted successfully", "s1")
  ∧ (delete_session (delete_session demo_sessions "s1").1 "s1").2
      = HTTPException 404 "Session not found".
Proof.
  pose proof (delete_session_twice demo_sessions "s1") as H.
  unfold demo_sessions in H at 1. rewrite lookup_insert_eq in H.
  destruct H as (H1 & _ & H2). rewrite H2, H1. split; reflexivity.
Defined.

End ApiProps.

(** * Facts about the Python operations *)
Module PyFacts.
Import Py.

Lemma bind_ok_inv {A B : Type} (c : result A) (k : A → result B) (b : B) :
  bind c k = Ok b → ∃ a, c = Ok a ∧ k a = Ok b.
Proof. destruct c as [a|e]; [eauto | discriminate]. Qed.

(** What holds of the accumulator before a loop and is kept by its body
    holds after the loop. *)
Lemma for_each_invariant {A S : Type} (P : S → Prop)
  (body : S → A → result S) (items : list A) :
  (∀ acc x acc', P acc → body acc x = Ok acc' → P acc') →
  ∀ acc out, P acc → for_each body items acc = Ok out → P out.
Proof.
  intros Hbody. induction items as [|x items IH]; intros acc out Hacc; simpl.
  - intros [= <-]. exact Hacc.
  - intros (acc' & Hx & Hrest)%bind_ok_inv. eauto.
Qed.

Lemma json_dumps_ok (v : pyval) :
  serializable v = true → json_dumps v = Ok (Encoded v).
Proof. intros H. unfold json_dumps. rewrite H. reflexivity. Qed.

Lemma json_dumps_inv (v : pyval) (t : json_text) :
  json_dumps v = Ok t → t = Encoded v ∧ serializable v = true.
Proof.
  unfold json_dumps. destruct (serializable v); [|discriminate].
  intros [= <-]. split; reflexivity.
Qed.

Lemma serializable_strings (l : list string) :
  forallb serializable (map PStr l) = true.
Proof. induction l; simpl; auto. Qed.

(** Upper-casing does not see the case of its argument. *)
Lemma ascii_upper_lower (c : ascii) : ascii_upper (ascii_lower c) = ascii_upper c.
Proof. destruct c as [[] [] [] [] [] [] [] []]; vm_compute; reflexivity. Qed.

Lemma str_upper_lower (s : string) : str_upper (str_lower s) = str_upper s.
Proof.
  induction s as [|c s IH]; [reflexivity|].
  unfold str_upper, str_lower in *. simpl. rewrite ascii_upper_lower, IH. reflexivity.
Qed.

Lemma N_of_digit (n : N) : N_of_ascii (digit n) = (48 + n mod 10)%N.
Proof.
  unfold digit. apply N_ascii_embedding.
  pose proof (N.mod_upper_bound n 10) as Hm.
  generalize dependent (n mod 10)%N. intros m Hm. lia.
Qed.

Lemma is_digit_digit (n : N) : is_digit (digit n) = true.
Proof.
  unfold is_digit. rewrite N_of_digit.
  pose proof (N.mod_upper_bound n 10) as Hm.
  generalize dependent (n mod 10)%N. intros m Hm.
  apply andb_true_intro. split; apply N.leb_le; lia.
Qed.

Lemma decimal_fuel_S (fuel : nat) (n : N) (acc : string) :
  decimal_fuel (S fuel) n acc =
    if (n / 10 =? 0)%N then String (digit n) acc
    else decimal_fuel fuel (n / 10) (String (digit n) acc).
Proof. reflexivity. Qed.

Lemma decimal_fuel_last (fuel : nat) (n : N) (acc : string) :
  (n < 10)%N → decimal_fuel (S fuel) n acc = String (digit n) acc.
Proof.
  intros Hn. rewrite decimal_fuel_S.
  replace (n / 10)%N with 0%N by (symmetry; apply N.div_small; lia).
  reflexivity.
Qed.

Lemma decimal_fuel_more (fuel : nat) (n : N) (acc : string) :
  (10 ≤ n)%N →
  decimal_fuel (S fuel) n acc = decimal_fuel fuel (n / 10) (String (digit n) acc).
Proof.
  intros Hn. rewrite decimal_fuel_S.
  destruct (N.eqb_spec (n / 10) 0) as [Hz|]; [|reflexivity].
  apply N.div_small_iff in Hz; lia.
Qed.

(** A number of at least [2 ^ k] has more than [k] bits. *)
Lemma size_nat_lower (k : nat) (n : N) :
  (2 ^ N.of_nat k ≤ n)%N → k < N.size_nat n.
Proof.
  revert n. induction k as [|k IH]; intros n Hn.
  - destruct n as [|p]; [simpl in Hn; lia|]. destruct p; simpl; lia.
  - rewrite Nat2N.inj_succ, N.pow_succ_r' in Hn.
    destruct n as [|[p|p|]]; simpl; try lia.
    + assert (k < N.size_nat (Npos p)) as Hk by (apply IH; lia). simpl in Hk. lia.
    + assert (k < N.size_nat (Npos p)) as Hk by (apply IH; lia). simpl in Hk. lia.
Qed.

(** One digit, two digits, four digits. *)
Lemma decimal_1 (n : N) : (n < 10)%N → decimal n = String (digit n) EmptyString.
Proof. intros Hn. apply decimal_fuel_last, Hn. Qed.

Lemma decimal_2 (n : N) :
  (10 ≤ n < 100)%N →
  decimal n = String (digit (n / 10)) (String (digit n) EmptyString).
Proof.
  intros Hn. unfold decimal. rewrite decimal_fuel_more by lia.
  pose proof (size_nat_lower 3 n) as Hsize.
  destruct (N.size_nat n) as [|fuel]; [simpl in Hsize; lia|].
  apply decimal_fuel_last. apply N.Div0.div_lt_upper_bound; lia.
Qed.

Lemma decimal_4 (n : N) :
  (1000 ≤ n < 10000)%N →
  decimal n = String (digit (n / 1000)) (String (digit (n / 100))
                (String (digit (n / 10)) (String (digit n) EmptyString))).
Proof.
  intros Hn. unfold decimal. rewrite decimal_fuel_more by lia.
  pose proof (size_nat_lower 9 n) as Hsize.
  destruct (N.size_nat n) as [|[|[|fuel]]]; try (simpl in Hsize; lia).
  assert (100 ≤ n / 10)%N by (apply N.div_le_lower_bound; lia).
  rewrite decimal_fuel_more by lia.
  rewrite N.Div0.div_div. change (10 * 10)%N with 100%N.
  assert (10 ≤ n / 100)%N by (apply N.div_le_lower_bound; lia).
  rewrite decimal_fuel_more by lia.
  rewrite N.Div0.div_div. change (100 * 10)%N with 1000%N.
  apply decimal_fuel_last. apply N.Div0.div_lt_upper_bound; lia.
Qed.

(** A field below 100 is written by [%02d] as two digits. *)
Lemma zfill_2_decimal (n : N) :
  (n < 100)%N →
  ∃ a b, zfill 2 (decimal n) = String a (String b EmptyString)
         ∧ is_digit a = true ∧ is_digit b = true.
Proof.
  intros Hn. destruct (N.lt_ge_cases n 10) as [Hs|Hl].
  - rewrite decimal_1 by assumption. exists "0"%char, (digit n).
    repeat split; auto using is_digit_digit.
  - rewrite decimal_2 by lia. exists (digit (n / 10)), (digit n).
    repeat split; auto using is_digit_digit.
Qed.

End PyFacts.

(** * Properties of the booking tool *)
Module BookingProps.
Import Py Env BookingTool PyFacts ToolTerms.

Lemma valid_type_decide (booking_type : string) :
  bool_decide (str_lower booking_type ∈ ["flight"; "hotel"]) = true
  ↔ valid_type booking_type.
Proof.
  rewrite bool_decide_eq_true. unfold valid_type.
  rewrite !elem_of_cons, elem_of_nil. tauto.
Qed.

Lemma valid_type_prefix (booking_type : string) :
  valid_type booking_type →
  str_take 3 (str_upper booking_type) = "FLI"
  ∨ str_take 3 (str_upper booking_type) = "HOT".
Proof.
  intros [H|H]; rewrite <- str_upper_lower, H; [left|right]; reflexivity.
Qed.

(** The timestamp of a four-digit year: fourteen digits. *)
Lemma strftime_fourteen_digits (d : Clock.datetime) :
  Clock.valid d = true → (1000 ≤ Clock.year d)%N →
  length (chars (Clock.strftime_YmdHMS d)) = 14
  ∧ forallb is_digit (chars (Clock.strftime_YmdHMS d)) = true.
Proof.
  unfold Clock.valid. rewrite !andb_true_iff.
  rewrite !N.leb_le, !N.ltb_lt. intros Hvalid Hyear.
  unfold Clock.strftime_YmdHMS. rewrite decimal_4 by lia.
  destruct (zfill_2_decimal (Clock.month d)) as (a1 & b1 & -> & ? & ?); [lia|].
  destruct (zfill_2_decimal (Clock.day d)) as (a2 & b2 & -> & ? & ?); [lia|].
  destruct (zfill_2_decimal (Clock.hour d)) as (a3 & b3 & -> & ? & ?); [lia|].
  destruct (zfill_2_decimal (Clock.minute d)) as (a4 & b4 & -> & ? & ?); [lia|].
  destruct (zfill_2_decimal (Clock.second d)) as (a5 & b5 & -> & ? & ?); [lia|].
  split; [reflexivity|]. simpl. rewrite !is_digit_digit.
  repeat match goal with H : is_digit _ = true |- _ => rewrite H; clear H end.
  reflexivity.
Qed.

Lemma chars_append (s t : string) : chars (s +:+ t) = chars s ++ chars t.
Proof. induction s as [|c s IH]; simpl; [reflexivity | f_equal; apply IH]. Qed.

Lemma prefix_append (s t : string) : String.prefix s (s +:+ t) = true.
Proof.
  induction s as [|c s IH]; simpl; [destruct t; reflexivity|].
  destruct (ascii_dec c c); [apply IH | congruence].
Qed.

Lemma matches_reference_intro (prefix digits : string) :
  length (chars digits) = 14 → forallb is_digit (chars digits) = true →
  matches_reference prefix (prefix +:+ digits) = true.
Proof.
  intros Hlen Hdigits. unfold matches_reference.
  rewrite prefix_append, chars_append. simpl.
  replace (String.length prefix) with (length (chars prefix))
    by (induction prefix; simpl; congruence).
  rewrite drop_app_length, Hlen, Hdigits. reflexivity.
Qed.

Lemma create_booking_outcome (w : World) (fs : filesystem)
  (booking_type booking_details customer_name customer_email : pyval) :
  ∃ fs' doc,
    create_booking w fs booking_type booking_details customer_name customer_email
      = (fs', Ok (Encoded doc))
    ∧ booking_outcome w fs booking_type booking_details customer_name
                      customer_email fs' doc.
Proof.
  unfold create_booking, create_booking_try.
  destruct (method_lower booking_type) as [lowered|e] eqn:Hlower.
  2:{ eexists _, _. split; [reflexivity|]. by apply rejected_type. }
  destruct booking_type as [| | | |type| | |]; try discriminate.
  injection Hlower as <-.
  destruct (bool_decide (str_lower type ∈ ["flight"; "hotel"])) eqn:Hvalid; simpl.
  2:{ eexists _, _. split; [reflexivity|]. eapply invalid_type; [reflexivity|].
      rewrite <- valid_type_decide, Hvalid. discriminate. }
  apply valid_type_decide in Hvalid.
  unfold save_booking.
  destruct (makedirs_error w bookings_dir) as [e|] eqn:Hdir.
  { eexists _, _. split; [reflexivity|]. by eapply directory_refused. }
  fold (reference w type).
  destruct (open_error w (booking_file (reference w type))) as [e|] eqn:Hopen.
  { eexists _, _. split; [reflexivity|]. by eapply file_refused. }
  match goal with |- context [json_dumps ?b] =>
    destruct (json_dumps b) as [text|e] eqn:Hdump end.
  2:{ cbn [dirs files]. eexists _, _. split; [reflexivity|].
      by eapply dump_refused. }
  apply json_dumps_inv in Hdump as [-> Hser]. cbn [dirs files].
  eexists _, _. split; [reflexivity|]. by eapply saved.
Qed.



(** C5: a call of [create_booking] that returns a [success:true] record, made
    when the clock shows a valid date of a four-digit year, returns a record
    whose status is "CONFIRMED" and whose reference is the first three
    letters of the upper-cased booking type, a hyphen, and the clock's
    [%Y%m%d%H%M%S] timestamp: "FLI" or "HOT" followed by "-" and fourteen
    digits; the reference of a hotel booking matches [HOT-\d{14}]. *)
Theorem successful_booking_reference (w : World) (fs fs' : filesystem)
  (booking_type booking_details customer_name customer_email doc : pyval) :
  create_booking w fs booking_type booking_details customer_name customer_email
    = (fs', Ok (Encoded doc)) →
  field doc "success" = Some (PBool true) →
  Clock.valid (now w 0) = true →
  (1000 ≤ Clock.year (now w 0))%N →
  ∃ type,
    booking_type = PStr type
    ∧ field doc "status" = Some (PStr "CONFIRMED")
    ∧ field doc "booking_reference" =
        Some (PStr (str_take 3 (str_upper type) +:+ "-"
                    +:+ Clock.strftime_YmdHMS (now w 0)))
    ∧ (str_take 3 (str_upper type) = "FLI" ∨ str_take 3 (str_upper type) = "HOT")
    ∧ matches_reference (str_take 3 (str_upper type) +:+ "-")
                        (reference w type) = true
    ∧ (str_lower type = "hotel" → matches_reference "HOT-" (reference w type) = true).
Proof.
  intros Hcall Hsuccess Hvalid Hyear.
  destruct (create_booking_outcome w fs booking_type booking_details
              customer_name customer_email) as (fs1 & doc1 & Hcall1 & Hout).
  rewrite Hcall in Hcall1. injection Hcall1 as <- <-.
  destruct Hout as [e _|type _ _|type e _ _ _|type e _ _ _ _|type booking e _ _ _ _ _ _
                   |type booking -> Htype Hmake _ _ _];
    try discriminate Hsuccess.
  unfold make_booking in Hmake. simpl in Hmake. injection Hmake as <-.
  destruct (strftime_fourteen_digits _ Hvalid Hyear) as [Hlen Hdigits].
  assert (matches_reference (str_take 3 (str_upper type) +:+ "-")
                            (reference w type) = true) as Hmatch.
  { unfold reference.
    replace (str_take 3 (str_upper type) +:+ "-" +:+ Clock.strftime_YmdHMS (now w 0))
      with ((str_take 3 (str_upper type) +:+ "-") +:+ Clock.strftime_YmdHMS (now w 0))
      by (destruct (valid_type_prefix type Htype) as [-> | ->]; reflexivity).
    by apply matches_reference_intro. }
  exists type. repeat split; try reflexivity; try assumption.
  - by apply valid_type_prefix.
  - intros Hhotel. revert Hmatch. unfold reference.
    rewrite <- str_upper_lower, Hhotel. trivial.
Qed.

Lemma successful_booking_reference_witness :
  ∃ fs' doc,
    create_booking demo_world empty_fs (PStr "hotel") (PStr "Grand Plaza, 2 nights")
                   (PStr "A. Traveler") (PStr "a@x.com") = (fs', Ok (Encoded doc))
    ∧ field doc "success" = Some (PBool true)
    ∧ field doc "status" = Some (PStr "CONFIRMED")
    ∧ field doc "booking_reference" = Some (PStr "HOT-20250601123045")
    ∧ matches_reference "HOT-" "HOT-20250601123045" = true.
Proof.
  eexists _, _.
  match goal with
  | |- ?call = (?fs', Ok (Encoded ?doc)) ∧ _ =>
      assert (call = (fs', Ok (Encoded doc))) as Hcall by (vm_compute; reflexivity)
  end.
  destruct (successful_booking_reference _ _ _ _ _ _ _ _ Hcall)
    as (type & Htype & Hstatus & Href & _ & _ & Hhotel);
    [reflexivity | reflexivity | vm_compute; discriminate|].
  injection Htype as <-.
  split; [exact Hcall|]. split; [reflexivity|].
  split; [exact Hstatus|]. split; [exact Href|]. exact (Hhotel eq_refl).
Defined.

(** C8: with a valid booking type, a [booking_details] string that
    [json.loads] rejects does not make the call fail: when the directory and the
    file of the booking can be written, the call returns a [success:true]
    record whose [booking_details] is [{"description": text}], and this record
    is the content of the booking's file. *)
Theorem text_details_are_wrapped (w : World) (fs : filesystem)
  (booking_type text customer_name customer_email : string) (e : exn) :
  valid_type booking_type →
  json_loads w text = Raise e →
  makedirs_error w bookings_dir = None →
  open_error w (booking_file (reference w booking_type)) = None →
  ∃ fs' doc,
    create_booking w fs (PStr booking_type) (PStr text)
                   (PStr customer_name) (PStr customer_email)
      = (fs', Ok (Encoded doc))
    ∧ field doc "success" = Some (PBool true)
    ∧ field doc "booking_details" = Some (PDict [("description", PStr text)])
    ∧ files fs' !! booking_file (reference w booking_type) = Some (Complete doc).
Proof.
  intros Htype Hloads Hdir Hopen.
  unfold create_booking, create_booking_try. simpl.
  rewrite (proj2 (valid_type_decide booking_type) Htype). simpl.
  unfold save_booking. rewrite Hdir. fold (reference w booking_type).
  rewrite Hopen, Hloads. simpl.
  eexists _, _. split; [reflexivity|]. split; [reflexivity|]. split; [reflexivity|].
  simpl. apply lookup_insert_eq.
Qed.

Lemma text_details_are_wrapped_witness :
  ∃ fs' doc,
    create_booking demo_world empty_fs (PStr "Hotel") (PStr "Grand Plaza, 2 nights")
                   (PStr "A. Traveler") (PStr "a@x.com") = (fs', Ok (Encoded doc))
    ∧ field doc "success" = Some (PBool true)
    ∧ field doc "booking_details" =
        Some (PDict [("description", PStr "Grand Plaza, 2 nights")])
    ∧ files fs' !! booking_file (reference demo_world "Hotel") = Some (Complete doc).
Proof.
  eapply (text_details_are_wrapped demo_world empty_fs "Hotel");
    [right; reflexivity | reflexivity | reflexivity | reflexivity].
Defined.

End BookingProps.

(** * Properties of the two search tools *)
Module SearchProps.
Import Py Env PyFacts ToolTerms.

Ltac binds H :=
  repeat (let x := fresh "x" in
          let E := fresh "E" in
          apply bind_ok_inv in H as (x & E & H)).

Lemma flight_entry_fields (flight entry : pyval) :
  FlightSearch.flight_entry flight = Ok entry → dict_keys entry = flight_fields.
Proof.
  unfold FlightSearch.flight_entry. intros H. binds H.
  injection H as <-. reflexivity.
Qed.

Lemma extract_flights_fields (data : pyval) (flights : list pyval) :
  FlightSearch.extract_flights data = Ok flights → has_fields flight_fields flights.
Proof.
  unfold FlightSearch.extract_flights. intros H.
  apply bind_ok_inv in H as (present & _ & H).
  destruct present; [|injection H as <-; constructor].
  binds H. revert H. apply for_each_invariant; [|constructor].
  intros acc flight acc' Hacc Hbody. binds Hbody. injection Hbody as <-.
  apply Forall_app. split; [assumption|].
  constructor; [eapply flight_entry_fields; eassumption | constructor].
Qed.

Lemma hotel_entry_fields (city : pyval) (hotels : list pyval) (hotel entry : pyval) :
  HotelSearch.hotel_entry city hotels hotel = Ok entry →
  dict_keys entry = hotel_fields.
Proof.
  unfold HotelSearch.hotel_entry. intros H. binds H.
  injection H as <-. reflexivity.
Qed.

Lemma extract_hotels_fields (city max_results data : pyval) (hotels : list pyval) :
  HotelSearch.extract_hotels city max_results data = Ok hotels →
  has_fields hotel_fields hotels.
Proof.
  unfold HotelSearch.extract_hotels. intros H. binds H.
  revert H. apply for_each_invariant; [|constructor].
  intros acc hotel acc' Hacc Hbody. binds Hbody. injection Hbody as <-.
  apply Forall_app. split; [assumption|].
  constructor; [eapply hotel_entry_fields; eassumption | constructor].
Qed.

Lemma search_flights_outcome (w : World)
  (origin destination departure_date return_date : pyval) :
  ∃ doc,
    FlightSearch.search_flights w origin destination departure_date return_date
      = Ok (Encoded doc)
    ∧ serializable doc = true
    ∧ flights_outcome w origin destination departure_date return_date doc.
Proof.
  unfold FlightSearch.search_flights.
  destruct (FlightSearch.search_flights_try w origin destination departure_date
              return_date) as [t|e] eqn:Htry; simpl.
  2:{ eexists. split; [reflexivity|]. split; [reflexivity|].
      by apply flights_failed. }
  pose proof Htry as H. unfold FlightSearch.search_flights_try in H.
  destruct (unset (getenv w "SERPAPI_KEY")) eqn:Hkey.
  { apply json_dumps_inv in H as [-> Hser]. eexists. split; [reflexivity|].
    split; [assumption|]. apply flights_mock. by left. }
  apply bind_ok_inv in H as (response & Hget & H).
  destruct (status_code response =? 200)%Z eqn:Hstatus.
  - binds H. apply json_dumps_inv in H as [-> Hser].
    eexists. split; [reflexivity|]. split; [assumption|].
    apply flights_live. eapply extract_flights_fields; eassumption.
  - apply json_dumps_inv in H as [-> Hser]. eexists. split; [reflexivity|].
    split; [assumption|]. apply flights_mock. right. split; [assumption|].
    exists response. split; [assumption|]. by apply Z.eqb_neq.
Qed.

Lemma search_flights_fallback (w : World)
  (origin destination departure_date return_date : pyval) :
  flights_fall_back w origin destination departure_date return_date →
  serializable
    (FlightSearch.mock_result origin destination departure_date return_date) = true →
  FlightSearch.search_flights w origin destination departure_date return_date
  = Ok (Encoded (FlightSearch.mock_result origin destination departure_date
                   return_date)).
Proof.
  intros Hfall Hser.
  unfold FlightSearch.search_flights, FlightSearch.search_flights_try,
    FlightSearch._get_mock_flight_data.
  destruct Hfall as [-> | (-> & response & -> & Hstatus)]; simpl.
  - rewrite json_dumps_ok by assumption. reflexivity.
  - apply Z.eqb_neq in Hstatus. rewrite Hstatus, json_dumps_ok by assumption.
    reflexivity.
Qed.

Lemma mock_hotel_data_inv (w : World)
  (city check_in check_out guests max_results : pyval) (t : json_text) :
  HotelSearch._get_mock_hotel_data w city check_in check_out guests max_results
    = Ok t →
  ∃ shown count,
    slice_to (PList (HotelSearch.mock_hotels w city)) max_results = Ok shown
    ∧ min_int (Z.of_nat (length (HotelSearch.mock_hotels w city))) max_results
        = Ok count
    ∧ t = Encoded (HotelSearch.mock_result city check_in check_out guests shown count)
    ∧ serializable
        (HotelSearch.mock_result city check_in check_out guests shown count) = true.
Proof.
  unfold HotelSearch._get_mock_hotel_data. intros H.
  apply bind_ok_inv in H as (shown & Hshown & H).
  apply bind_ok_inv in H as (count & Hcount & H).
  apply json_dumps_inv in H as [-> Hser]. eauto 6.
Qed.

Lemma search_hotels_outcome (w : World)
  (city check_in check_out guests max_results : pyval) :
  ∃ doc,
    HotelSearch.search_hotels w city check_in check_out guests max_results
      = Ok (Encoded doc)
    ∧ serializable doc = true
    ∧ hotels_outcome w city check_in check_out guests max_results doc.
Proof.
  unfold HotelSearch.search_hotels.
  destruct (HotelSearch.search_hotels_try w city check_in check_out guests
              max_results) as [t|e] eqn:Htry; simpl.
  2:{ eexists. split; [reflexivity|]. split; [reflexivity|].
      by apply hotels_failed. }
  pose proof Htry as H. unfold HotelSearch.search_hotels_try in H.
  destruct (unset (getenv w "AMADEUS_API_KEY")
            || unset (getenv w "AMADEUS_API_SECRET")) eqn:Hcred.
  { apply mock_hotel_data_inv in H as (shown & count & ? & ? & -> & ?).
    eexists. split; [reflexivity|]. split; [assumption|].
    apply hotels_mock; [by apply no_credentials | assumption | assumption]. }
  apply bind_ok_inv in H as (token_response & Hpost & H).
  destruct (status_code token_response =? 200)%Z eqn:Htoken; simpl in H.
  2:{ apply mock_hotel_data_inv in H as (shown & count & ? & ? & -> & ?).
      eexists. split; [reflexivity|]. split; [assumption|].
      apply hotels_mock; [|assumption|assumption].
      eapply token_refused; [assumption | eassumption | by apply Z.eqb_neq]. }
  apply bind_ok_inv in H as (token_json & Hjson & H).
  apply bind_ok_inv in H as (access_token & Htok & H).
  apply bind_ok_inv in H as (code & Hcode & H).
  apply bind_ok_inv in H as (response & Hget & H).
  destruct (status_code response =? 200)%Z eqn:Hstatus.
  - binds H. apply json_dumps_inv in H as [-> Hser].
    eexists. split; [reflexivity|]. split; [assumption|].
    apply hotels_live. eapply extract_hotels_fields; eassumption.
  - apply mock_hotel_data_inv in H as (shown & count & ? & ? & -> & ?).
    eexists. split; [reflexivity|]. split; [assumption|].
    apply hotels_mock; [|assumption|assumption].
    eapply search_refused; try eassumption; [by apply Z.eqb_eq | by apply Z.eqb_neq].
Qed.

(** In each of the fall-back cases the tool returns what
    [_get_mock_hotel_data] returns. *)
Lemma search_hotels_fallback (w : World)
  (city check_in check_out guests max_results : pyval) (t : json_text) :
  hotels_fall_back w city →
  HotelSearch._get_mock_hotel_data w city check_in check_out guests max_results
    = Ok t →
  HotelSearch.search_hotels w city check_in check_out guests max_results = Ok t.
Proof.
  intros Hfall Hmock.
  unfold HotelSearch.search_hotels, HotelSearch.search_hotels_try.
  destruct Hfall as [-> | token_response -> -> Hstatus
                    | token_response token_json access_token code response
                        -> -> Htoken Hjson Htok Hcode Hget Hstatus]; simpl.
  - rewrite Hmock. reflexivity.
  - apply Z.eqb_neq in Hstatus. rewrite Hstatus. simpl. rewrite Hmock. reflexivity.
  - apply Z.eqb_neq in Hstatus. rewrite Htoken. simpl.
    rewrite Hjson. simpl. rewrite Htok. simpl. rewrite Hcode. simpl.
    rewrite Hget. simpl. rewrite Hstatus, Hmock. reflexivity.
Qed.

Lemma forallb_take_py {A : Type} (p : A → bool) (stop : option Z) (l : list A) :
  forallb p l = true → forallb p (take_py stop l) = true.
Proof.
  intros Hall. assert (∀ n, forallb p (take n l) = true) as Htake.
  { induction l as [|x l IH]; intros [|n]; simpl; try reflexivity.
    simpl in Hall. apply andb_prop in Hall as [Hx Hl].
    rewrite Hx, IH by assumption. reflexivity. }
  unfold take_py. destruct stop as [n|]; [|assumption].
  destruct (0 <=? n)%Z; apply Htake.
Qed.

(** The mock data for string arguments and integer [guests] and
    [max_results]. *)
Lemma mock_hotel_data_int (w : World) (city check_in check_out : string)
  (guests max_results : Z) :
  HotelSearch._get_mock_hotel_data w (PStr city) (PStr check_in) (PStr check_out)
    (PInt guests) (PInt max_results)
  = Ok (Encoded
          (HotelSearch.mock_result (PStr city) (PStr check_in) (PStr check_out)
             (PInt guests)
             (PList (take_py (Some max_results) (HotelSearch.mock_hotels w (PStr city))))
             (PInt (if (max_results <? 5)%Z then max_results else 5)))).
Proof.
  unfold HotelSearch._get_mock_hotel_data. simpl bind.
  apply json_dumps_ok. unfold HotelSearch.mock_result.
  cbn [serializable forallb snd andb].
  rewrite forallb_take_py; reflexivity.
Qed.

End SearchProps.

(** * Properties of the tool adapters *)
Module ToolProps.
Import Py Env PyFacts BookingProps SearchProps ToolTerms.

Lemma mock_flights_fields : has_fields flight_fields FlightSearch.mock_flights.
Proof. repeat constructor. Qed.

Lemma mock_hotels_fields (w : World) (city : pyval) :
  has_fields hotel_fields (HotelSearch.mock_hotels w city).
Proof. repeat constructor. Qed.

Lemma has_fields_take_py (fields : list string) (stop : option Z) (l : list pyval) :
  has_fields fields l → has_fields fields (take_py stop l).
Proof.
  intros H. unfold take_py. destruct stop as [n|]; [|assumption].
  destruct (0 <=? n)%Z; by apply Forall_take.
Qed.

Lemma slice_to_list_inv (l : list pyval) (stop shown : pyval) :
  slice_to (PList l) stop = Ok shown → ∃ n, shown = PList (take_py n l).
Proof.
  simpl. intros (n & _ & H)%bind_ok_inv. injection H as <-. eauto.
Qed.

Lemma flights_mock_shape (origin destination departure_date return_date : pyval) :
  mock_shape flight_result_fields flight_fields "flights"
    (FlightSearch.mock_result origin destination departure_date return_date).
Proof.
  repeat split; try reflexivity; [eexists; reflexivity|].
  eexists. split; [reflexivity | apply mock_flights_fields].
Qed.

Lemma hotels_mock_shape (w : World)
  (city check_in check_out guests max_results shown count : pyval) :
  slice_to (PList (HotelSearch.mock_hotels w city)) max_results = Ok shown →
  mock_shape hotel_result_fields hotel_fields "hotels"
    (HotelSearch.mock_result city check_in check_out guests shown count).
Proof.
  intros [n ->]%slice_to_list_inv.
  repeat split; try reflexivity; [eexists; reflexivity|].
  eexists. split; [reflexivity|]. apply has_fields_take_py, mock_hotels_fields.
Qed.

(** Every [success:true] result of the search tools is a live or a mock
    result. *)
Lemma search_flights_shape (w : World)
  (origin destination departure_date return_date doc : pyval) :
  FlightSearch.search_flights w origin destination departure_date return_date
    = Ok (Encoded doc) →
  field doc "success" = Some (PBool true) →
  live_shape flight_result_fields flight_fields "flights" doc
  ∨ mock_shape flight_result_fields flight_fields "flights" doc.
Proof.
  intros Hcall Hsuccess.
  destruct (search_flights_outcome w origin destination departure_date return_date)
    as (doc' & Hcall' & _ & Hout).
  rewrite Hcall in Hcall'. injection Hcall' as <-.
  destruct Hout as [_|flights Hfields|e _]; [| |discriminate Hsuccess].
  - right. apply flights_mock_shape.
  - left. repeat split; try reflexivity. eexists. split; [reflexivity|assumption].
Qed.

Lemma search_hotels_shape (w : World)
  (city check_in check_out guests max_results doc : pyval) :
  HotelSearch.search_hotels w city check_in check_out guests max_results
    = Ok (Encoded doc) →
  field doc "success" = Some (PBool true) →
  live_shape hotel_result_fields hotel_fields "hotels" doc
  ∨ mock_shape hotel_result_fields hotel_fields "hotels" doc.
Proof.
  intros Hcall Hsuccess.
  destruct (search_hotels_outcome w city check_in check_out guests max_results)
    as (doc' & Hcall' & _ & Hout).
  rewrite Hcall in Hcall'. injection Hcall' as <-.
  destruct Hout as [shown count _ Hshown _|hotels Hfields|e _];
    [| |discriminate Hsuccess].
  - right. eapply hotels_mock_shape; eassumption.
  - left. repeat split; try reflexivity. eexists. split; [reflexivity|assumption].
Qed.


(** C4, as the specification states it, fails where no credentials are
    configured: the result of the flight search carries no [source] field. *)
Lemma mock_result_not_tagged_source :
  ¬ (∀ t, FlightSearch.search_flights demo_world
            (PStr "JFK") (PStr "CDG") (PStr "2025-06-01") PNone = Ok t →
          field (decoded t) "source" = Some (PStr "mock")
          ∧ ∃ note, field (decoded t) "note" = Some (PStr note)).
Proof.
  intros Hclaim.
  destruct (Hclaim (Encoded (FlightSearch.mock_result
                               (PStr "JFK") (PStr "CDG") (PStr "2025-06-01") PNone))
                   eq_refl) as [Hsource _].
  discriminate Hsource.
Qed.

(** C4, amended: when the credentials are missing or the provider answers
    with a status other than 200, a search with string arguments (and integer
    [guests] and [max_results]) returns the [success:true] mock result, which
    depends on the arguments only (two worlds that both fall back return the
    same text), has the field names of a live result and, besides, a [note]
    string, its entries having the field names of the entries of a live result;
    it has no [source] field.  Every [success:true] result of the two tools has
    one of these two shapes. *)
Theorem mock_fallback (w w' : World) :
  (∀ (origin destination departure_date : string) (return_date : option string),
     flights_fall_back w (PStr origin) (PStr destination) (PStr departure_date)
                       (optional_date return_date) →
     FlightSearch.search_flights w (PStr origin) (PStr destination)
       (PStr departure_date) (optional_date return_date)
       = Ok (Encoded (FlightSearch.mock_result (PStr origin) (PStr destination)
                        (PStr departure_date) (optional_date return_date)))
     ∧ mock_shape flight_result_fields flight_fields "flights"
         (FlightSearch.mock_result (PStr origin) (PStr destination)
            (PStr departure_date) (optional_date return_date))
     ∧ (flights_fall_back w' (PStr origin) (PStr destination) (PStr departure_date)
                          (optional_date return_date) →
        FlightSearch.search_flights w' (PStr origin) (PStr destination)
          (PStr departure_date) (optional_date return_date)
        = FlightSearch.search_flights w (PStr origin) (PStr destination)
            (PStr departure_date) (optional_date return_date)))
  ∧ (∀ (city check_in check_out : string) (guests max_results : Z),
       hotels_fall_back w (PStr city) →
       (∃ doc,
          HotelSearch.search_hotels w (PStr city) (PStr check_in) (PStr check_out)
            (PInt guests) (PInt max_results) = Ok (Encoded doc)
          ∧ mock_shape hotel_result_fields hotel_fields "hotels" doc)
       ∧ (hotels_fall_back w' (PStr city) →
          HotelSearch.search_hotels w' (PStr city) (PStr check_in) (PStr check_out)
            (PInt guests) (PInt max_results)
          = HotelSearch.search_hotels w (PStr city) (PStr check_in) (PStr check_out)
              (PInt guests) (PInt max_results)))
  ∧ (∀ origin destination departure_date return_date doc,
       FlightSearch.search_flights w origin destination departure_date return_date
         = Ok (Encoded doc) →
       field doc "success" = Some (PBool true) →
       live_shape flight_result_fields flight_fields "flights" doc
       ∨ mock_shape flight_result_fields flight_fields "flights" doc)
  ∧ (∀ city check_in check_out guests max_results doc,
       HotelSearch.search_hotels w city check_in check_out guests max_results
         = Ok (Encoded doc) →
       field doc "success" = Some (PBool true) →
       live_shape hotel_result_fields hotel_fields "hotels" doc
       ∨ mock_shape hotel_result_fields hotel_fields "hotels" doc).
Proof.
  split; [|split; [|split]].
  - intros origin destination departure_date return_date Hfall.
    assert (serializable (FlightSearch.mock_result (PStr origin) (PStr destination)
              (PStr departure_date) (optional_date return_date)) = true) as Hser
      by (destruct return_date; reflexivity).
    split; [by apply search_flights_fallback|].
    split; [apply flights_mock_shape|].
    intros Hfall'. rewrite !search_flights_fallback by assumption. reflexivity.
  - intros city check_in check_out guests max_results Hfall.
    pose proof (mock_hotel_data_int w city check_in check_out guests max_results)
      as Hmock.
    split.
    + eexists. split; [eapply search_hotels_fallback; eassumption|].
      apply (hotels_mock_shape w _ _ _ _ (PInt max_results)). reflexivity.
    + intros Hfall'.
      rewrite (search_hotels_fallback w _ _ _ _ _ _ Hfall Hmock).
      apply (search_hotels_fallback w' _ _ _ _ _ _ Hfall').
      apply (mock_hotel_data_int w' city check_in check_out guests max_results).
  - apply search_flights_shape.
  - apply search_hotels_shape.
Qed.

Lemma mock_fallback_witness :
  FlightSearch.search_flights throttled_world
    (PStr "JFK") (PStr "CDG") (PStr "2025-06-01") PNone
  = FlightSearch.search_flights demo_world
      (PStr "JFK") (PStr "CDG") (PStr "2025-06-01") PNone
  ∧ ∃ doc,
      HotelSearch.search_hotels demo_world (PStr "Paris") (PStr "2025-06-01")
        (PStr "2025-06-03") (PInt 2) (PInt 3) = Ok (Encoded doc)
      ∧ mock_shape hotel_result_fields hotel_fields "hotels" doc.
Proof.
  destruct (mock_fallback demo_world throttled_world) as (Hflights & Hhotels & _).
  split.
  - apply (Hflights "JFK" "CDG" "2025-06-01" None); [by left|].
    right. split; [reflexivity|]. eexists. split; [reflexivity | discriminate].
  - apply (Hhotels "Paris" "2025-06-01" "2025-06-03" 2%Z 3%Z).
    by apply no_credentials.
Defined.

(** C10: in every [success:true] result of [search_flights], live or mock,
    [count] is the number of entries of [flights]; and so it is for [hotels]
    in every [success:true] result of [search_hotels] called with an integer
    [max_results >= 0]. *)
Theorem count_matches_entries (w : World) :
  (∀ origin destination departure_date return_date doc,
     FlightSearch.search_flights w origin destination departure_date return_date
       = Ok (Encoded doc) →
     field doc "success" = Some (PBool true) →
     ∃ flights, field doc "flights" = Some (PList flights)
                ∧ field doc "count" = Some (PInt (Z.of_nat (length flights))))
  ∧ (∀ city check_in check_out guests (max_results : Z) doc,
       (0 ≤ max_results)%Z →
       HotelSearch.search_hotels w city check_in check_out guests (PInt max_results)
         = Ok (Encoded doc) →
       field doc "success" = Some (PBool true) →
       ∃ hotels, field doc "hotels" = Some (PList hotels)
                 ∧ field doc "count" = Some (PInt (Z.of_nat (length hotels)))).
Proof.
  split.
  - intros origin destination departure_date return_date doc Hcall Hsuccess.
    destruct (search_flights_outcome w origin destination departure_date return_date)
      as (doc' & Hcall' & _ & Hout).
    rewrite Hcall in Hcall'. injection Hcall' as <-.
    destruct Hout as [_|flights _|e _]; [| |discriminate Hsuccess];
      eexists; split; reflexivity.
  - intros city check_in check_out guests max_results doc Hmax Hcall Hsuccess.
    destruct (search_hotels_outcome w city check_in check_out guests (PInt max_results))
      as (doc' & Hcall' & _ & Hout).
    rewrite Hcall in Hcall'. injection Hcall' as <-.
    destruct Hout as [shown count _ Hshown Hcount|hotels _|e _];
      [| |discriminate Hsuccess]; [|eexists; split; reflexivity].
    simpl in Hshown, Hcount. injection Hshown as <-. injection Hcount as <-.
    eexists. split; [reflexivity|]. simpl. do 3 f_equal.
    apply Z.leb_le in Hmax. rewrite Hmax, length_take. simpl length.
    change (Z.of_nat 5) with 5%Z. destruct (Z.ltb_spec max_results 5); lia.
Qed.

Lemma count_matches_entries_witness :
  ∃ doc hotels,
    HotelSearch.search_hotels demo_world (PStr "Paris") (PStr "2025-06-01")
      (PStr "2025-06-03") (PInt 2) (PInt 3) = Ok (Encoded doc)
    ∧ field doc "hotels" = Some (PList hotels)
    ∧ length hotels = 3
    ∧ field doc "count" = Some (PInt 3).
Proof.
  destruct (count_matches_entries demo_world) as [_ Hhotels].
  destruct (Hhotels (PStr "Paris") (PStr "2025-06-01") (PStr "2025-06-03") (PInt 2)
              3%Z _ ltac:(lia) eq_refl eq_refl) as (hotels & Hfield & Hcount).
  eexists _, hotels. split; [reflexivity|]. split; [exact Hfield|].
  injection Hfield as <-. split; [reflexivity | exact Hcount].
Defined.

(** With a negative [max_results] the mock result counts the limit, not the
    entries: four hotels and [count = -1]. *)
Example negative_max_results :
  ∃ hotels,
    HotelSearch.search_hotels demo_world (PStr "Paris") (PStr "2025-06-01")
      (PStr "2025-06-03") (PInt 2) (PInt (-1))
    = Ok (Encoded (HotelSearch.mock_result (PStr "Paris") (PStr "2025-06-01")
                     (PStr "2025-06-03") (PInt 2) (PList hotels) (PInt (-1))))
    ∧ length hotels = 4.
Proof. eexists. split; reflexivity. Qed.

End ToolProps.

(** * The boundary of the tools *)
Module BoundaryProps.
Import Py Env Decorated ToolTerms BoundaryTerms ToolProps.







End BoundaryProps.

(** * Further properties of the session API *)
Module SessionProps.
Import Py Memory Api ApiTerms ApiCases ApiProps.

Lemma history_append_prefix (sessions : gmap string Session) sid sid' m :
  history sessions sid' `prefix_of` history (append_message sessions sid m) sid'.
Proof.
  destruct (decide (sid' = sid)) as [->|Hne].
  - destruct (sessions !! sid) as [session|] eqn:Hs.
    + destruct (history_append_eq sessions sid m) as [-> _]; [eauto|].
      by apply prefix_app_r.
    + unfold append_message. rewrite Hs. reflexivity.
  - rewrite history_append_ne by assumption. reflexivity.
Qed.

(** The state and the response of a turn that the executor answers with a
    string. *)
Lemma chat_answers w (sessions : gmap string Session) request result reply :
  agent_invoke w (message request)
    (history sessions (turn_session_id w request)) = Ok result →
  getitem_str result "output" = Ok (PStr reply) →
  chat w sessions request =
    (append_message
       (append_message (get_or_create w sessions (turn_session_id w request)).1
          (turn_session_id w request) (HumanMessage (PStr (message request))))
       (turn_session_id w request) (AIMessage (PStr reply)),
     Respond (MkChatResponse reply (turn_session_id w request))).
Proof.
  intros Hinvoke Houtput. unfold chat, chat_try.
  pose proof (history_get_or_create w sessions (turn_session_id w request)) as Hg.
  destruct (get_or_create w sessions (turn_session_id w request))
    as [sessions1 session].
  destruct Hg as (_ & Hm & _). rewrite Hm, Hinvoke. simpl.
  rewrite Houtput. reflexivity.
Qed.

Lemma chat_answers_history w (sessions : gmap string Session) request result reply :
  agent_invoke w (message request)
    (history sessions (turn_session_id w request)) = Ok result →
  getitem_str result "output" = Ok (PStr reply) →
  history (chat w sessions request).1 (turn_session_id w request) =
    history sessions (turn_session_id w request)
    ++ [HumanMessage (PStr (message request)); AIMessage (PStr reply)].
Proof.
  intros Hinvoke Houtput. rewrite (chat_answers _ _ _ _ _ Hinvoke Houtput). simpl.
  pose proof (history_get_or_create w sessions (turn_session_id w request)) as Hg.
  destruct (get_or_create w sessions (turn_session_id w request))
    as [sessions1 session].
  destruct Hg as (Hin & _ & Hall & _). simpl.
  destruct (history_append_eq sessions1 (turn_session_id w request)
              (HumanMessage (PStr (message request)))) as [H1 H1']; [eauto|].
  destruct (history_append_eq _ (turn_session_id w request)
              (AIMessage (PStr reply)) H1') as [H2 _].
  rewrite H2, H1, Hall, <- app_assoc. reflexivity.
Qed.

(** X1: a chat turn, whatever its outcome, only appends: for every session
    id the messages held before the turn are a prefix of those held after. *)
Theorem chat_only_appends (w : World) (sessions : gmap string Session)
  (request : ChatRequest) (sid : string) :
  history sessions sid `prefix_of` history (chat w sessions request).1 sid.
Proof.
  unfold chat, chat_try.
  pose proof (history_get_or_create w sessions (turn_session_id w request)) as Hg.
  destruct (get_or_create w sessions (turn_session_id w request))
    as [sessions1 session].
  destruct Hg as (_ & _ & Hall & _). rewrite <- (Hall sid).
  destruct (agent_invoke w (message request) _) as [result|e]; simpl; [|reflexivity].
  destruct (bind (getitem_str result "output") _); simpl.
  - etrans; apply history_append_prefix.
  - apply history_append_prefix.
Qed.

(** X2: when the executor's result has no usable [output] entry, the turn
    fails with status 500 after the user's message was appended: the session
    ends with the user's message and no reply. *)
Theorem chat_without_output (w : World) (sessions : gmap string Session)
  (request : ChatRequest) (result : pyval) (e : exn) :
  agent_invoke w (message request)
    (history sessions (turn_session_id w request)) = Ok result →
  getitem_str result "output" = Raise e →
  (chat w sessions request).2 =
    HTTPException 500 ("Error processing request: " +:+ exn_str e)
  ∧ history (chat w sessions request).1 (turn_session_id w request) =
      history sessions (turn_session_id w request)
      ++ [HumanMessage (PStr (message request))].
Proof.
  intros Hinvoke Houtput. unfold chat, chat_try.
  pose proof (history_get_or_create w sessions (turn_session_id w request)) as Hg.
  destruct (get_or_create w sessions (turn_session_id w request))
    as [sessions1 session].
  destruct Hg as (Hin & Hm & Hall & _). rewrite Hm, Hinvoke. simpl.
  rewrite Houtput. simpl. split; [reflexivity|].
  destruct (history_append_eq sessions1 (turn_session_id w request)
              (HumanMessage (PStr (message request)))) as [-> _]; [eauto|].
  rewrite Hall. reflexivity.
Qed.

Lemma chat_without_output_witness :
  (chat silent ∅ (MkChatRequest "hello" (Some "s1"))).2 =
    HTTPException 500 "Error processing request: 'output'"
  ∧ history (chat silent ∅ (MkChatRequest "hello" (Some "s1"))).1 "s1" =
      [HumanMessage (PStr "hello")].
Proof.
  destruct (chat_without_output silent ∅ (MkChatRequest "hello" (Some "s1"))
              (PDict [("input", PStr "hello")]) (KeyError "output")
              eq_refl eq_refl) as [Hresponse Hhistory].
  split; [exact Hresponse | exact Hhistory].
Defined.

(** X3: a turn addressed to an unknown session id registers the session
    even when the executor raises: the table gains this one entry, an empty
    session, and [list_sessions] counts and lists it. *)
Theorem failed_turn_registers_session (w : World)
  (sessions : gmap string Session) (request : ChatRequest) (e : exn) :
  sessions !! turn_session_id w request = None →
  agent_invoke w (message request) [] = Raise e →
  (chat w sessions request).1 =
    <[turn_session_id w request := new_session w (turn_session_id w request)]>
      sessions
  ∧ (list_sessions (chat w sessions request).1).1 = S (size sessions)
  ∧ turn_session_id w request ∈ (list_sessions (chat w sessions request).1).2.
Proof.
  intros Hnew Hraise.
  assert (history sessions (turn_session_id w request) = []) as Hempty
    by (unfold history; rewrite Hnew; reflexivity).
  rewrite <- Hempty in Hraise. rewrite (chat_invoke_raises _ _ _ _ Hraise).
  unfold get_or_create. rewrite Hnew. simpl. split; [reflexivity|]. split.
  - by apply map_size_insert_None.
  - apply list_elem_of_fmap. eexists (_, _). split; [reflexivity|].
    apply elem_of_map_to_list, lookup_insert_eq.
Qed.

Lemma failed_turn_registers_session_witness :
  (list_sessions (chat unreachable ∅ (MkChatRequest "hello" (Some "s1"))).1).1 = 1
  ∧ "s1" ∈ (list_sessions (chat unreachable ∅ (MkChatRequest "hello" (Some "s1"))).1).2.
Proof.
  destruct (failed_turn_registers_session unreachable ∅
              (MkChatRequest "hello" (Some "s1"))
              (Exn "APIConnectionError" "Connection error.")
              (lookup_empty _) eq_refl)
    as (_ & Hcount & Hlisted).
  split; [exact Hcount | exact Hlisted].
Defined.

(** X4: when the executor returns a result whose [output] is a string, the
    turn responds with this string and the id of its session; the session
    holds what it held, the user's message and the reply, and every other
    entry of the table is as it was. *)
Theorem answered_turn (w : World) (sessions : gmap string Session)
  (request : ChatRequest) (result : pyval) (reply : string) :
  agent_invoke w (message request)
    (history sessions (turn_session_id w request)) = Ok result →
  getitem_str result "output" = Ok (PStr reply) →
  (chat w sessions request).2 =
    Respond (MkChatResponse reply (turn_session_id w request))
  ∧ history (chat w sessions request).1 (turn_session_id w request) =
      history sessions (turn_session_id w request)
      ++ [HumanMessage (PStr (message request)); AIMessage (PStr reply)]
  ∧ ∀ sid, sid ≠ turn_session_id w request →
           (chat w sessions request).1 !! sid = sessions !! sid.
Proof.
  intros Hinvoke Houtput. split; [|split].
  - rewrite (chat_answers _ _ _ _ _ Hinvoke Houtput). reflexivity.
  - by eapply chat_answers_history.
  - intros sid Hne. rewrite (chat_answers _ _ _ _ _ Hinvoke Houtput). simpl.
    rewrite !lookup_append_ne by assumption.
    pose proof (history_get_or_create w sessions (turn_session_id w request)) as Hg.
    destruct (get_or_create w sessions (turn_session_id w request))
      as [sessions1 session].
    destruct Hg as (_ & _ & _ & Hother & _). by apply Hother.
Qed.

Lemma answered_turn_witness :
  (chat (answering "I found 4 flights.") used_sessions
        (MkChatRequest "find flights" (Some "s1"))).2 =
    Respond (MkChatResponse "I found 4 flights." "s1")
  ∧ length (history (chat (answering "I found 4 flights.") used_sessions
                          (MkChatRequest "find flights" (Some "s1"))).1 "s1") = 4.
Proof.
  destruct (answered_turn (answering "I found 4 flights.") used_sessions
              (MkChatRequest "find flights" (Some "s1"))
              (PDict [("input", PStr ""); ("output", PStr "I found 4 flights.")])
              "I found 4 flights." eq_refl eq_refl) as (Hresponse & Hhistory & _).
  split; [exact Hresponse | exact (f_equal length Hhistory)].
Defined.

Lemma history_absent (sessions : gmap string Session) sid :
  sessions !! sid = None → history sessions sid = [].
Proof. intros H. unfold history. rewrite H. reflexivity. Qed.

(** X5: a deleted session is forgotten: an answered turn addressed to the
    id after [delete_session] leaves in the session this turn's two messages
    and nothing of what the session held before. *)
Theorem delete_forgets_history (w : World) (sessions : gmap string Session)
  (request : ChatRequest) (result : pyval) (reply : string) :
  agent_invoke w (message request) [] = Ok result →
  getitem_str result "output" = Ok (PStr reply) →
  history
    (chat w (delete_session sessions (turn_session_id w request)).1 request).1
    (turn_session_id w request)
  = [HumanMessage (PStr (message request)); AIMessage (PStr reply)].
Proof.
  intros Hinvoke Houtput.
  assert (history (delete_session sessions (turn_session_id w request)).1
                  (turn_session_id w request) = []) as Hgone.
  { apply history_absent. unfold delete_session.
    destruct (sessions !! turn_session_id w request) eqn:Hs; simpl;
      [apply lookup_delete_eq | assumption]. }
  rewrite <- Hgone in Hinvoke.
  rewrite (chat_answers_history _ _ _ _ _ Hinvoke Houtput), Hgone. reflexivity.
Qed.

Lemma delete_forgets_history_witness :
  length (history used_sessions "s1") = 2
  ∧ history
      (chat (answering "Welcome.") (delete_session used_sessions "s1").1
            (MkChatRequest "hi again" (Some "s1"))).1 "s1"
    = [HumanMessage (PStr "hi again"); AIMessage (PStr "Welcome.")].
Proof.
  split; [reflexivity|].
  exact (delete_forgets_history (answering "Welcome.") used_sessions
           (MkChatRequest "hi again" (Some "s1"))
           (PDict [("input", PStr ""); ("output", PStr "Welcome.")]) "Welcome."
           eq_refl eq_refl).
Defined.

(** X6: [create_session] returns an id under which the table then holds an
    empty session (whatever it held under this id before), and leaves the other
    entries alone; an answered turn addressed to the returned id responds
    under this id and leaves exactly the turn's two messages in the session. *)
Theorem create_session_then_chat (w0 w : World) (sessions : gmap string Session)
  (text : string) (result : pyval) (reply : string) :
  (create_session w0 sessions).2.1 ≠ "" →
  agent_invoke w text [] = Ok result →
  getitem_str result "output" = Ok (PStr reply) →
  let sid := (create_session w0 sessions).2.1 in
  let request := MkChatRequest text (Some sid) in
  history (create_session w0 sessions).1 sid = []
  ∧ (∀ sid', sid' ≠ sid → (create_session w0 sessions).1 !! sid' = sessions !! sid')
  ∧ (chat w (create_session w0 sessions).1 request).2
      = Respond (MkChatResponse reply sid)
  ∧ history (chat w (create_session w0 sessions).1 request).1 sid
      = [HumanMessage (PStr text); AIMessage (PStr reply)].
Proof.
  simpl. intros Hid Hinvoke Houtput.
  assert (turn_session_id w (MkChatRequest text (Some (uuid4 w0))) = uuid4 w0)
    as Hturn.
  { unfold turn_session_id. simpl.
    destruct (String.eqb_spec (uuid4 w0) ""); [contradiction | reflexivity]. }
  assert (history (<[uuid4 w0 := new_session w0 (uuid4 w0)]> sessions) (uuid4 w0)
          = []) as Hempty
    by (unfold history; rewrite lookup_insert_eq; reflexivity).
  split; [exact Hempty|]. split.
  { intros sid' Hne. rewrite lookup_insert_ne by congruence. reflexivity. }
  set (request := MkChatRequest text (Some (uuid4 w0))) in *.
  assert (agent_invoke w (message request)
            (history (<[uuid4 w0 := new_session w0 (uuid4 w0)]> sessions)
                     (turn_session_id w request)) = Ok result) as Hinvoke'
    by (rewrite Hturn, Hempty; exact Hinvoke).
  split.
  - rewrite (chat_answers _ _ _ _ _ Hinvoke' Houtput), Hturn. reflexivity.
  - pose proof (chat_answers_history _ _ _ _ _ Hinvoke' Houtput) as Hhistory.
    rewrite Hturn, Hempty in Hhistory. exact Hhistory.
Qed.

Lemma create_session_then_chat_witness :
  history
    (chat (answering "Welcome.") (create_session unreachable used_sessions).1
          (MkChatRequest "hello" (Some (uuid4 unreachable)))).1
    (uuid4 unreachable)
  = [HumanMessage (PStr "hello"); AIMessage (PStr "Welcome.")].
Proof.
  destruct (create_session_then_chat unreachable (answering "Welcome.")
              used_sessions "hello"
              (PDict [("input", PStr ""); ("output", PStr "Welcome.")]) "Welcome.")
    as (_ & _ & _ & Hhistory); [discriminate | reflexivity | reflexivity |].
  exact Hhistory.
Defined.

Lemma list_sessions_listed (sessions : gmap string Session) (sid : string) :
  sid ∈ (list_sessions sessions).2 → is_Some (sessions !! sid).
Proof.
  unfold list_sessions. simpl. rewrite list_elem_of_fmap.
  intros ([sid' session] & -> & Hin). apply elem_of_map_to_list in Hin. eauto.
Qed.

(** X7: [list_sessions] lists every session id of the table once and no
    other id, and its count is the number of ids it lists. *)
Theorem list_sessions_exact (sessions : gmap string Session) :
  (list_sessions sessions).1 = length (list_sessions sessions).2
  ∧ NoDup (list_sessions sessions).2
  ∧ ∀ sid, sid ∈ (list_sessions sessions).2 ↔ is_Some (sessions !! sid).
Proof.
  unfold list_sessions. simpl. split; [|split].
  - rewrite length_map, length_map_to_list. reflexivity.
  - apply NoDup_fst_map_to_list.
  - intros sid. rewrite list_elem_of_fmap. split.
    + intros ([sid' session] & -> & Hin). apply elem_of_map_to_list in Hin. eauto.
    + intros [session Hs]. exists (sid, session). split; [reflexivity|].
      by apply elem_of_map_to_list.
Qed.

(** X8: deleting a session that exists removes this one entry: the count
    of [list_sessions] drops by one, the id is no longer listed, and every
    other session is kept as it was. *)
Theorem delete_session_removes_one (sessions : gmap string Session)
  (sid : string) :
  is_Some (sessions !! sid) →
  S (list_sessions (delete_session sessions sid).1).1 = (list_sessions sessions).1
  ∧ ¬ (sid ∈ (list_sessions (delete_session sessions sid).1).2)
  ∧ ∀ sid', sid' ≠ sid → (delete_session sessions sid).1 !! sid' = sessions !! sid'.
Proof.
  intros [session Hs]. unfold delete_session. rewrite Hs. simpl. split; [|split].
  - rewrite (map_size_delete_Some sid sessions) by eauto.
    assert (size sessions ≠ 0) by (eapply map_size_ne_0_lookup_2; eauto). lia.
  - intros Hin. apply list_sessions_listed in Hin.
    rewrite lookup_delete_eq in Hin. by destruct Hin.
  - intros sid' Hne. by apply lookup_delete_ne.
Qed.

Lemma delete_session_removes_one_witness :
  (list_sessions used_sessions).1 = 1
  ∧ (list_sessions (delete_session used_sessions "s1").1).1 = 0.
Proof.
  destruct (delete_session_removes_one used_sessions "s1") as (Hcount & _);
    [eexists; reflexivity|].
  split; [reflexivity|]. apply Nat.succ_inj. exact Hcount.
Defined.

End SessionProps.

(** * Further properties of the booking tool *)
Module BookingExtra.
Import Py Env BookingTool PyFacts ToolTerms ToolCases BookingProps.

(** X9: a call of [create_booking] writes to no file but the booking's own:
    whatever the arguments and the outcome, the directories that existed
    still exist and every other file has the content it had; a booking type
    that is not a string leaves the file system as it was. *)
Theorem create_booking_frame (w : World) (fs : filesystem)
  (booking_type booking_details customer_name customer_email : pyval) :
  dirs fs ⊆ dirs (create_booking w fs booking_type booking_details
                                 customer_name customer_email).1
  ∧ (∀ type path,
       booking_type = PStr type → path ≠ booking_file (reference w type) →
       files (create_booking w fs booking_type booking_details
                             customer_name customer_email).1 !! path
       = files fs !! path)
  ∧ (isinstance_str booking_type = false →
     (create_booking w fs booking_type booking_details
                     customer_name customer_email).1 = fs).
Proof.
  destruct (create_booking_outcome w fs booking_type booking_details
              customer_name customer_email) as (fs' & doc & -> & Hout).
  simpl.
  destruct Hout as [e He|type -> _|type e -> _ _|type e -> _ _ _
                   |type booking e -> _ _ _ _ _|type booking -> _ _ _ _ _];
    simpl; (split; [set_solver|]); split; try discriminate; try reflexivity;
    intros type' path Htype Hne; try reflexivity;
    injection Htype as <-; by rewrite lookup_insert_ne.
Qed.

(** X10: the record a successful call returns is the record it stored: the
    file [data/bookings/<booking_reference>.json] holds exactly the returned
    document, the directory exists, and this file is the only change. *)
Theorem stored_record_is_returned (w : World) (fs fs' : filesystem)
  (booking_type booking_details customer_name customer_email doc : pyval) :
  create_booking w fs booking_type booking_details customer_name customer_email
    = (fs', Ok (Encoded doc)) →
  field doc "success" = Some (PBool true) →
  ∃ ref,
    field doc "booking_reference" = Some (PStr ref)
    ∧ files fs' !! ("data/bookings/" +:+ ref +:+ ".json") = Some (Complete doc)
    ∧ files fs' = <["data/bookings/" +:+ ref +:+ ".json" := Complete doc]> (files fs)
    ∧ "data/bookings" ∈ dirs fs'.
Proof.
  intros Hcall Hsuccess.
  destruct (create_booking_outcome w fs booking_type booking_details
              customer_name customer_email) as (fs1 & doc1 & Hcall1 & Hout).
  rewrite Hcall in Hcall1. injection Hcall1 as <- <-.
  destruct Hout as [e _|type _ _|type e _ _ _|type e _ _ _ _
                   |type booking e _ _ _ _ _ _
                   |type booking -> Htype Hmake _ _ _];
    try discriminate Hsuccess.
  unfold make_booking in Hmake. simpl in Hmake. injection Hmake as <-.
  exists (reference w type). simpl. split; [reflexivity|].
  split; [apply lookup_insert_eq|]. split; [reflexivity|]. set_solver.
Qed.

Lemma stored_record_is_returned_witness :
  ∃ fs' doc,
    create_booking demo_world empty_fs (PStr "flight") (PStr "AI 101, JFK to CDG")
                   (PStr "A. Traveler") (PStr "a@x.com") = (fs', Ok (Encoded doc))
    ∧ files fs' !! "data/bookings/FLI-20250601123045.json" = Some (Complete doc).
Proof.
  eexists _, _.
  match goal with
  | |- ?call = (?fs', Ok (Encoded ?doc)) ∧ _ =>
      assert (call = (fs', Ok (Encoded doc))) as Hcall by (vm_compute; reflexivity)
  end.
  destruct (stored_record_is_returned _ _ _ _ _ _ _ _ Hcall eq_refl)
    as (ref & Href & Hfile & _).
  injection Href as <-. split; [exact Hcall | exact Hfile].
Defined.

(** X15: a call that returns [success:false] has stored no record: every
    file that holds a complete record after the call held this record before. *)
Theorem failed_booking_stores_nothing (w : World) (fs fs' : filesystem)
  (booking_type booking_details customer_name customer_email doc : pyval) :
  create_booking w fs booking_type booking_details customer_name customer_email
    = (fs', Ok (Encoded doc)) →
  field doc "success" = Some (PBool false) →
  ∀ path record,
    files fs' !! path = Some (Complete record) →
    files fs !! path = Some (Complete record).
Proof.
  intros Hcall Hsuccess.
  destruct (create_booking_outcome w fs booking_type booking_details
              customer_name customer_email) as (fs1 & doc1 & Hcall1 & Hout).
  rewrite Hcall in Hcall1. injection Hcall1 as <- <-.
  destruct Hout as [e _|type _ _|type e _ _ _|type e _ _ _ _
                   |type booking e _ _ _ _ _ _
                   |type booking -> Htype Hmake _ _ _];
    simpl; try (intros path record Hfile; exact Hfile).
  - intros path record. rewrite lookup_insert.
    destruct (decide (booking_file (reference w type) = path)); [discriminate|auto].
  - unfold make_booking in Hmake. simpl in Hmake. injection Hmake as <-.
    discriminate Hsuccess.
Qed.

Lemma failed_booking_stores_nothing_witness :
  field invalid_type_result "success" = Some (PBool false)
  ∧ ∀ path record,
      files (create_booking demo_world empty_fs (PStr "cruise") (PStr "7 nights")
               (PStr "A. Traveler") (PStr "a@x.com")).1 !! path
        = Some (Complete record) →
      files empty_fs !! path = Some (Complete record).
Proof.
  split; [reflexivity|].
  exact (failed_booking_stores_nothing demo_world empty_fs _ (PStr "cruise")
           (PStr "7 nights") (PStr "A. Traveler") (PStr "a@x.com") _
           eq_refl eq_refl).
Defined.

Lemma zfill_2_exact (n : N) :
  (n < 100)%N →
  zfill 2 (decimal n) = String (digit (n / 10)) (String (digit n) EmptyString).
Proof.
  intros Hn. destruct (N.lt_ge_cases n 10) as [Hs|Hl].
  - rewrite decimal_1 by assumption.
    rewrite (N.div_small n 10) by assumption. reflexivity.
  - rewrite decimal_2 by lia. reflexivity.
Qed.

Lemma digit_inj (a b : N) : digit a = digit b → (a mod 10 = b mod 10)%N.
Proof.
  intros H. apply (f_equal N_of_ascii) in H. rewrite !N_of_digit in H.
  by apply N.add_cancel_l in H.
Qed.

Lemma div_mod_10_inj (a b : N) :
  (a / 10 = b / 10)%N → (a mod 10 = b mod 10)%N → a = b.
Proof.
  intros Hq Hr. rewrite (N.Div0.div_mod a 10), (N.Div0.div_mod b 10), Hq, Hr.
  reflexivity.
Qed.

Lemma small_digit_inj (a b : N) :
  (a < 10)%N → (b < 10)%N → digit a = digit b → a = b.
Proof.
  intros Ha Hb H%digit_inj. by rewrite !N.mod_small in H.
Qed.

Lemma two_digits_inj (n m : N) :
  (n < 100)%N → (m < 100)%N →
  digit (n / 10) = digit (m / 10) → digit n = digit m → n = m.
Proof.
  intros Hn Hm Hq Hr. apply div_mod_10_inj; [|by apply digit_inj].
  apply small_digit_inj; [| |assumption];
    apply N.Div0.div_lt_upper_bound; lia.
Qed.

Lemma four_digits_inj (n m : N) :
  (n < 10000)%N → (m < 10000)%N →
  digit (n / 1000) = digit (m / 1000) → digit (n / 100) = digit (m / 100) →
  digit (n / 10) = digit (m / 10) → digit n = digit m → n = m.
Proof.
  intros Hn Hm H3 H2 H1 H0.
  assert (n / 1000 = m / 1000)%N as E3
    by (apply small_digit_inj; [| |assumption];
        apply N.Div0.div_lt_upper_bound; lia).
  assert (n / 100 = m / 100)%N as E2.
  { apply div_mod_10_inj; [|by apply digit_inj].
    rewrite !N.Div0.div_div. exact E3. }
  assert (n / 10 = m / 10)%N as E1.
  { apply div_mod_10_inj; [|by apply digit_inj].
    rewrite !N.Div0.div_div. exact E2. }
  apply div_mod_10_inj; [exact E1 | by apply digit_inj].
Qed.

Lemma valid_bounds (d : Clock.datetime) :
  Clock.valid d = true →
  (Clock.year d < 10000 ∧ Clock.month d < 100 ∧ Clock.day d < 100
   ∧ Clock.hour d < 100 ∧ Clock.minute d < 100 ∧ Clock.second d < 100)%N.
Proof.
  unfold Clock.valid. rewrite !andb_true_iff, !N.leb_le, !N.ltb_lt. lia.
Qed.

Lemma strftime_exact (d : Clock.datetime) :
  four_digit_year d →
  Clock.strftime_YmdHMS d =
    String (digit (Clock.year d / 1000)) (String (digit (Clock.year d / 100))
    (String (digit (Clock.year d / 10)) (String (digit (Clock.year d))
    (String (digit (Clock.month d / 10)) (String (digit (Clock.month d))
    (String (digit (Clock.day d / 10)) (String (digit (Clock.day d))
    (String (digit (Clock.hour d / 10)) (String (digit (Clock.hour d))
    (String (digit (Clock.minute d / 10)) (String (digit (Clock.minute d))
    (String (digit (Clock.second d / 10)) (String (digit (Clock.second d))
    EmptyString))))))))))))).
Proof.
  intros [Hvalid Hyear]. apply valid_bounds in Hvalid.
  unfold Clock.strftime_YmdHMS.
  rewrite decimal_4, !zfill_2_exact by lia. reflexivity.
Qed.

Lemma append_cancel_l (s a b : string) : s +:+ a = s +:+ b → a = b.
Proof. induction s as [|c s IH]; simpl; [auto | intros [= H]; auto]. Qed.

(** X12: the timestamp of the reference tells seconds apart and nothing
    finer: for two clock readings of four-digit years, the
    [%Y%m%d%H%M%S] texts are equal exactly when the readings agree from
    the year down to the second, and so are the references of two bookings
    of one type. *)
Theorem reference_resolution (w1 w2 : World) (booking_type : string) :
  four_digit_year (now w1 0) → four_digit_year (now w2 0) →
  (Clock.strftime_YmdHMS (now w1 0) = Clock.strftime_YmdHMS (now w2 0)
   ↔ same_second (now w1 0) (now w2 0))
  ∧ (reference w1 booking_type = reference w2 booking_type
     ↔ same_second (now w1 0) (now w2 0)).
Proof.
  intros H1 H2.
  assert (Clock.strftime_YmdHMS (now w1 0) = Clock.strftime_YmdHMS (now w2 0)
          ↔ same_second (now w1 0) (now w2 0)) as Hiff.
  { split.
    - rewrite (strftime_exact _ H1), (strftime_exact _ H2).
      destruct H1 as [V1%valid_bounds _], H2 as [V2%valid_bounds _].
      intros [= Y3 Y2 Y1 Y0 M1 M0 D1 D0 h1 h0 m1 m0 s1 s0].
      repeat split;
        first [ apply four_digits_inj; (assumption || lia)
              | apply two_digits_inj; (assumption || lia) ].
    - intros (Hy & Hm & Hd & HH & HM & HS). unfold Clock.strftime_YmdHMS.
      rewrite Hy, Hm, Hd, HH, HM, HS. reflexivity. }
  split; [exact Hiff|]. rewrite <- Hiff. unfold reference. split.
  - intros H. by apply append_cancel_l, (append_cancel_l "-") in H.
  - intros ->. reflexivity.
Qed.

Lemma reference_resolution_witness :
  reference demo_world "hotel" = reference demo_world_later "hotel"
  ∧ reference demo_world "hotel" ≠ reference demo_world_next "hotel".
Proof.
  split.
  - apply (reference_resolution demo_world demo_world_later "hotel");
      repeat split; vm_compute; congruence.
  - intros H.
    apply (reference_resolution demo_world demo_world_next "hotel") in H;
      [|repeat split; vm_compute; congruence..].
    destruct H as (_ & _ & _ & _ & _ & H). discriminate H.
Defined.

Lemma successful_booking_inv (w : World) (fs fs' : filesystem)
  (booking_type booking_details customer_name customer_email doc : pyval) :
  create_booking w fs booking_type booking_details customer_name customer_email
    = (fs', Ok (Encoded doc)) →
  field doc "success" = Some (PBool true) →
  ∃ type,
    booking_type = PStr type
    ∧ field doc "booking_reference" = Some (PStr (reference w type))
    ∧ field doc "booking_details" = Some (parse_details w booking_details)
    ∧ files fs' = <[booking_file (reference w type) := Complete doc]> (files fs).
Proof.
  intros Hcall Hsuccess.
  destruct (create_booking_outcome w fs booking_type booking_details
              customer_name customer_email) as (fs1 & doc1 & Hcall1 & Hout).
  rewrite Hcall in Hcall1. injection Hcall1 as <- <-.
  destruct Hout as [e _|type _ _|type e _ _ _|type e _ _ _ _
                   |type booking e _ _ _ _ _ _
                   |type booking -> Htype Hmake _ _ _];
    try discriminate Hsuccess.
  unfold make_booking in Hmake. simpl in Hmake. injection Hmake as <-.
  exists type. repeat split.
Qed.

(** X11: two successful bookings whose types have the same lower-case form,
    made one after the other within the same second, get the same reference,
    and the second overwrites the first: the file that held the first record
    holds the second, and the two bookings have changed this one file only. *)
Theorem same_second_bookings_collide (w1 w2 : World) (fs fs1 fs2 : filesystem)
  (type1 type2 : string)
  (details1 name1 email1 doc1 details2 name2 email2 doc2 : pyval) :
  create_booking w1 fs (PStr type1) details1 name1 email1
    = (fs1, Ok (Encoded doc1)) →
  field doc1 "success" = Some (PBool true) →
  create_booking w2 fs1 (PStr type2) details2 name2 email2
    = (fs2, Ok (Encoded doc2)) →
  field doc2 "success" = Some (PBool true) →
  str_lower type1 = str_lower type2 →
  same_second (now w1 0) (now w2 0) →
  field doc1 "booking_reference" = field doc2 "booking_reference"
  ∧ files fs1 !! booking_file (reference w1 type1) = Some (Complete doc1)
  ∧ files fs2 !! booking_file (reference w1 type1) = Some (Complete doc2)
  ∧ files fs2 = <[booking_file (reference w1 type1) := Complete doc2]> (files fs).
Proof.
  intros Hcall1 Hok1 Hcall2 Hok2 Htype (Hy & Hm & Hd & HH & HM & HS).
  destruct (successful_booking_inv _ _ _ _ _ _ _ _ Hcall1 Hok1)
    as (t1 & [= <-] & Href1 & _ & Hfiles1).
  destruct (successful_booking_inv _ _ _ _ _ _ _ _ Hcall2 Hok2)
    as (t2 & [= <-] & Href2 & _ & Hfiles2).
  assert (reference w2 type2 = reference w1 type1) as Hsame.
  { unfold reference, Clock.strftime_YmdHMS.
    rewrite <- (str_upper_lower type1), Htype, str_upper_lower.
    rewrite Hy, Hm, Hd, HH, HM, HS. reflexivity. }
  rewrite Hsame in *. split; [congruence|].
  rewrite Hfiles2, Hfiles1, insert_insert_eq.
  split; [apply lookup_insert_eq|]. split; [apply lookup_insert_eq | reflexivity].
Qed.

Lemma same_second_bookings_collide_witness :
  ∃ fs1 doc1 fs2 doc2,
    create_booking demo_world empty_fs (PStr "hotel") (PStr "Grand Plaza")
                   (PStr "A. Traveler") (PStr "a@x.com") = (fs1, Ok (Encoded doc1))
    ∧ create_booking demo_world_later fs1 (PStr "Hotel") (PStr "City View Inn")
                     (PStr "B. Traveler") (PStr "b@x.com") = (fs2, Ok (Encoded doc2))
    ∧ doc1 ≠ doc2
    ∧ files fs2 = <["data/bookings/HOT-20250601123045.json" := Complete doc2]> ∅.
Proof.
  eexists _, _, _, _.
  match goal with
  | |- ?call = (?fs', Ok (Encoded ?doc)) ∧ _ =>
      assert (call = (fs', Ok (Encoded doc))) as Hcall1 by (vm_compute; reflexivity)
  end.
  split; [exact Hcall1|].
  match goal with
  | |- ?call = (?fs', Ok (Encoded ?doc)) ∧ _ =>
      assert (call = (fs', Ok (Encoded doc))) as Hcall2 by (vm_compute; reflexivity)
  end.
  split; [exact Hcall2|]. split; [discriminate|].
  destruct (same_second_bookings_collide _ _ _ _ _ _ _ _ _ _ _ _ _ _ _
              Hcall1 eq_refl Hcall2 eq_refl eq_refl)
    as (_ & _ & _ & Hfiles); [repeat split|].
  exact Hfiles.
Defined.

(** X13: with a valid booking type and a [booking_details] string that
    [json.loads] accepts, the record holds the decoded value, not the string:
    when the directory and the file can be written, the call returns a
    [success:true] record whose [booking_details] is the value decoded. *)
Theorem json_details_are_decoded (w : World) (fs : filesystem)
  (booking_type text customer_name customer_email : string) (value : pyval) :
  valid_type booking_type →
  json_loads w text = Ok value →
  serializable value = true →
  makedirs_error w bookings_dir = None →
  open_error w (booking_file (reference w booking_type)) = None →
  ∃ fs' doc,
    create_booking w fs (PStr booking_type) (PStr text)
                   (PStr customer_name) (PStr customer_email)
      = (fs', Ok (Encoded doc))
    ∧ field doc "success" = Some (PBool true)
    ∧ field doc "booking_details" = Some value
    ∧ files fs' !! booking_file (reference w booking_type) = Some (Complete doc).
Proof.
  intros Htype Hloads Hser Hdir Hopen.
  unfold create_booking, create_booking_try. simpl.
  rewrite (proj2 (valid_type_decide booking_type) Htype). simpl.
  unfold save_booking. rewrite Hdir. fold (reference w booking_type).
  rewrite Hopen, Hloads. unfold json_dumps. simpl. rewrite Hser. simpl.
  eexists _, _. split; [reflexivity|]. split; [reflexivity|]. split; [reflexivity|].
  apply lookup_insert_eq.
Qed.

Lemma json_details_are_decoded_witness :
  ∃ fs' doc,
    create_booking demo_world empty_fs (PStr "flight") (PStr "null")
                   (PStr "A. Traveler") (PStr "a@x.com") = (fs', Ok (Encoded doc))
    ∧ field doc "success" = Some (PBool true)
    ∧ field doc "booking_details" = Some PNone
    ∧ files fs' !! booking_file (reference demo_world "flight") = Some (Complete doc).
Proof.
  eapply (json_details_are_decoded demo_world empty_fs "flight" "null");
    [left; reflexivity | reflexivity | reflexivity | reflexivity | reflexivity].
Defined.

End BookingExtra.

(** * Further properties of the search tools *)
Module SearchExtra.
Import Py Env PyFacts ToolTerms ToolCases SearchProps.

Lemma chars_of_chars (l : list ascii) : chars (of_chars l) = l.
Proof. apply String.list_ascii_of_string_of_list_ascii. Qed.

Lemma of_chars_chars (s : string) : of_chars (chars s) = s.
Proof. apply String.string_of_list_ascii_of_string. Qed.

Lemma chars_length (s : string) : length (chars s) = String.length s.
Proof. induction s; simpl; congruence. Qed.

(** A loop whose body appends one entry per item appends as many entries
    as there are items. *)
Lemma for_each_length {A : Type} (body : list pyval → A → result (list pyval))
  (items : list A) :
  (∀ acc x acc', body acc x = Ok acc' → length acc' = S (length acc)) →
  ∀ acc out, for_each body items acc = Ok out →
             length out = length acc + length items.
Proof.
  intros Hbody. induction items as [|x items IH]; intros acc out; simpl.
  - intros [= <-]. lia.
  - intros (acc' & Hx & Hrest)%bind_ok_inv.
    rewrite (IH _ _ Hrest), (Hbody _ _ _ Hx). lia.
Qed.

(** A loop one of whose items makes the body raise raises. *)
Lemma for_each_raises {A S : Type} (body : S → A → result S) (items : list A)
  (x : A) :
  x ∈ items → (∀ acc, ∃ e, body acc x = Raise e) →
  ∀ acc, ∃ e, for_each body items acc = Raise e.
Proof.
  intros Hin Hx. induction items as [|y items IH]; intros acc.
  - by apply elem_of_nil in Hin.
  - simpl. destruct (body acc y) as [acc'|e] eqn:Hy; simpl; [|eauto].
    apply elem_of_cons in Hin as [<- | Hin]; [|by apply IH].
    destruct (Hx acc) as [e He]. congruence.
Qed.

Lemma iterate_slice_length (v top : pyval) (items : list pyval) (n : nat) :
  slice_to v (PInt (Z.of_nat n)) = Ok top → iterate top = Ok items →
  length items ≤ n.
Proof.
  destruct v; simpl; try discriminate; intros [= <-]; simpl; intros [= <-];
    rewrite ?length_map, ?chars_of_chars;
    (replace (0 <=? Z.of_nat n)%Z with true by (symmetry; apply Z.leb_le; lia));
    rewrite length_take, Nat2Z.id; lia.
Qed.

(** The results of the body of [search_flights]. *)
Lemma search_flights_try_inv (w : World)
  (origin destination departure_date return_date : pyval) (t : json_text) :
  FlightSearch.search_flights_try w origin destination departure_date return_date
    = Ok t →
  t = Encoded (FlightSearch.mock_result origin destination departure_date return_date)
  ∨ ∃ data flights,
      FlightSearch.extract_flights data = Ok flights
      ∧ t = Encoded (FlightSearch.live_result origin destination departure_date
                       return_date flights).
Proof.
  unfold FlightSearch.search_flights_try. intros H.
  destruct (unset (getenv w "SERPAPI_KEY")).
  { apply json_dumps_inv in H as [-> _]. by left. }
  apply bind_ok_inv in H as (response & _ & H).
  destruct (status_code response =? 200)%Z.
  - apply bind_ok_inv in H as (data & _ & H).
    apply bind_ok_inv in H as (flights & Hextract & H).
    apply json_dumps_inv in H as [-> _]. right. eauto.
  - apply json_dumps_inv in H as [-> _]. by left.
Qed.

Lemma search_flights_success_inv (w : World)
  (origin destination departure_date return_date doc : pyval) :
  FlightSearch.search_flights w origin destination departure_date return_date
    = Ok (Encoded doc) →
  field doc "success" = Some (PBool true) →
  doc = FlightSearch.mock_result origin destination departure_date return_date
  ∨ ∃ data flights,
      FlightSearch.extract_flights data = Ok flights
      ∧ doc = FlightSearch.live_result origin destination departure_date
                return_date flights.
Proof.
  unfold FlightSearch.search_flights. intros Hcall Hsuccess.
  destruct (FlightSearch.search_flights_try w origin destination departure_date
              return_date) as [t|e] eqn:Htry; simpl in Hcall.
  - injection Hcall as ->.
    apply search_flights_try_inv in Htry as [[= ->] | (data & flights & ? & [= ->])];
      eauto.
  - injection Hcall as <-. discriminate Hsuccess.
Qed.

Lemma extract_flights_length (data : pyval) (flights : list pyval) :
  FlightSearch.extract_flights data = Ok flights → length flights ≤ 5.
Proof.
  unfold FlightSearch.extract_flights. intros H.
  apply bind_ok_inv in H as (present & _ & H).
  destruct present; [|injection H as <-; simpl; lia].
  apply bind_ok_inv in H as (best & _ & H).
  apply bind_ok_inv in H as (top & Htop & H).
  apply bind_ok_inv in H as (items & Hitems & H).
  apply for_each_length in H.
  - rewrite H. simpl. apply (iterate_slice_length best top items 5); assumption.
  - intros acc flight acc' Hbody. binds Hbody. injection Hbody as <-.
    rewrite length_app. simpl. lia.
Qed.

(** X16: a [success:true] result of [search_flights] lists at most five
    flights, however many the provider sent. *)
Theorem at_most_five_flights (w : World)
  (origin destination departure_date return_date doc : pyval) :
  FlightSearch.search_flights w origin destination departure_date return_date
    = Ok (Encoded doc) →
  field doc "success" = Some (PBool true) →
  ∃ flights, field doc "flights" = Some (PList flights) ∧ length flights ≤ 5.
Proof.
  intros Hcall Hsuccess.
  destruct (search_flights_success_inv _ _ _ _ _ _ Hcall Hsuccess)
    as [-> | (data & flights & Hextract & ->)].
  - eexists. split; [reflexivity|]. simpl. lia.
  - eexists. split; [reflexivity|]. by eapply extract_flights_length.
Qed.

Lemma at_most_five_flights_witness :
  ∃ doc flights,
    FlightSearch.search_flights (live_world seven_flights)
      (PStr "JFK") (PStr "CDG") (PStr "2025-06-01") PNone = Ok (Encoded doc)
    ∧ field doc "flights" = Some (PList flights)
    ∧ length flights = 5.
Proof.
  eexists _, _.
  match goal with
  | |- ?call = Ok (Encoded ?doc) ∧ _ =>
      assert (call = Ok (Encoded doc)) as Hcall by (vm_compute; reflexivity)
  end.
  destruct (at_most_five_flights _ _ _ _ _ _ Hcall eq_refl)
    as (flights & Hfield & _).
  injection Hfield as <-.
  split; [exact Hcall|]. split; reflexivity.
Defined.

Lemma assoc_lookup_None_keys (k : string) (d : list (string * pyval)) :
  assoc_lookup k d = None → k ∉ map fst d.
Proof.
  induction d as [|[k' v] d IH]; simpl; intros Hnone Hin.
  - by apply elem_of_nil in Hin.
  - destruct (String.eqb_spec k k') as [->|Hne]; [discriminate|].
    apply elem_of_cons in Hin as [Heq|Hin]; [congruence | by apply IH].
Qed.

Lemma assoc_lookup_Some_keys (k : string) (d : list (string * pyval)) (v : pyval) :
  assoc_lookup k d = Some v → k ∈ map fst d.
Proof.
  induction d as [|[k' v'] d IH]; simpl; [discriminate|].
  destruct (String.eqb_spec k k') as [->|Hne]; intros H.
  - apply elem_of_cons. by left.
  - apply elem_of_cons. right. by apply IH.
Qed.

(** The tool on the live path: a key, an answer with status 200 and a
    JSON body. *)
Lemma search_flights_live (w : World)
  (origin destination departure_date return_date : pyval)
  (response : response) (data : pyval) :
  unset (getenv w "SERPAPI_KEY") = false →
  requests_get w "https://serpapi.com/search" None
    (FlightSearch.search_params (default "" (getenv w "SERPAPI_KEY"))
       origin destination departure_date return_date) = Ok response →
  status_code response = 200%Z →
  json response = Ok data →
  FlightSearch.search_flights w origin destination departure_date return_date =
    try_except
      (let* flights := FlightSearch.extract_flights data in
       json_dumps (FlightSearch.live_result origin destination departure_date
                     return_date flights))
      (fun e => json_dumps (FlightSearch.failure_result e)).
Proof.
  intros Hkey Hget Hstatus Hjson.
  unfold FlightSearch.search_flights, FlightSearch.search_flights_try.
  rewrite Hkey, Hget. simpl. rewrite Hstatus. simpl. rewrite Hjson. reflexivity.
Qed.

(** X17: an answer with status 200 whose JSON object has no [best_flights]
    entry is not replaced by the mock data: the tool returns [success:true]
    with no flights, [count] 0 and no [note]. *)
Theorem no_best_flights_is_empty_result (w : World)
  (origin destination departure_date : string) (return_date : option string)
  (response : response) (items : list (string * pyval)) :
  unset (getenv w "SERPAPI_KEY") = false →
  requests_get w "https://serpapi.com/search" None
    (FlightSearch.search_params (default "" (getenv w "SERPAPI_KEY"))
       (PStr origin) (PStr destination) (PStr departure_date)
       (optional_date return_date)) = Ok response →
  status_code response = 200%Z →
  json response = Ok (PDict items) →
  assoc_lookup "best_flights" items = None →
  ∃ doc,
    FlightSearch.search_flights w (PStr origin) (PStr destination)
      (PStr departure_date) (optional_date return_date) = Ok (Encoded doc)
    ∧ field doc "success" = Some (PBool true)
    ∧ field doc "flights" = Some (PList [])
    ∧ field doc "count" = Some (PInt 0)
    ∧ field doc "note" = None.
Proof.
  intros Hkey Hget Hstatus Hjson Habsent.
  rewrite (search_flights_live _ _ _ _ _ _ _ Hkey Hget Hstatus Hjson).
  assert (FlightSearch.extract_flights (PDict items) = Ok []) as ->.
  { unfold FlightSearch.extract_flights. simpl.
    rewrite bool_decide_eq_false_2; [reflexivity|].
    by apply assoc_lookup_None_keys. }
  simpl. rewrite json_dumps_ok by (destruct return_date; reflexivity).
  eexists. split; [reflexivity|]. repeat split.
Qed.

Lemma no_best_flights_is_empty_result_witness :
  ∃ doc,
    FlightSearch.search_flights (live_world (PDict [("error", PStr "No results")]))
      (PStr "JFK") (PStr "CDG") (PStr "2025-06-01") (optional_date None)
      = Ok (Encoded doc)
    ∧ field doc "success" = Some (PBool true)
    ∧ field doc "flights" = Some (PList [])
    ∧ field doc "count" = Some (PInt 0)
    ∧ field doc "note" = None.
Proof.
  eapply (no_best_flights_is_empty_result
            (live_world (PDict [("error", PStr "No results")]))
            "JFK" "CDG" "2025-06-01" None); reflexivity.
Defined.

Lemma flight_entry_needs_flights (flight : pyval) :
  field flight "flights" = None → ∃ e, FlightSearch.flight_entry flight = Raise e.
Proof.
  intros Hnone. unfold FlightSearch.flight_entry, FlightSearch.first_leg.
  destruct flight; simpl in *; try (eexists; reflexivity).
  rewrite Hnone. simpl. eexists; reflexivity.
Qed.

(** X18: one entry without a [flights] list among the first five of
    [best_flights] fails the whole search: the tool returns [success:false]
    and none of the flights, the well-formed ones included. *)
Theorem one_bad_flight_fails_search (w : World)
  (origin destination departure_date return_date : pyval)
  (response : response) (items : list (string * pyval))
  (flights : list pyval) (flight : pyval) :
  unset (getenv w "SERPAPI_KEY") = false →
  requests_get w "https://serpapi.com/search" None
    (FlightSearch.search_params (default "" (getenv w "SERPAPI_KEY"))
       origin destination departure_date return_date) = Ok response →
  status_code response = 200%Z →
  json response = Ok (PDict items) →
  assoc_lookup "best_flights" items = Some (PList flights) →
  flight ∈ take 5 flights →
  field flight "flights" = None →
  ∃ e,
    FlightSearch.search_flights w origin destination departure_date return_date
      = Ok (Encoded (FlightSearch.failure_result e))
    ∧ field (FlightSearch.failure_result e) "success" = Some (PBool false)
    ∧ field (FlightSearch.failure_result e) "flights" = None.
Proof.
  intros Hkey Hget Hstatus Hjson Hbest Hin Hbad.
  rewrite (search_flights_live _ _ _ _ _ _ _ Hkey Hget Hstatus Hjson).
  assert (∃ e, FlightSearch.extract_flights (PDict items) = Raise e) as [e ->].
  { unfold FlightSearch.extract_flights. simpl.
    rewrite bool_decide_eq_true_2 by (eapply assoc_lookup_Some_keys; eassumption).
    simpl. rewrite Hbest. simpl.
    eapply for_each_raises; [exact Hin|].
    intros acc. destruct (flight_entry_needs_flights flight Hbad) as [e He].
    rewrite He. eexists; reflexivity. }
  exists e. repeat split.
Qed.

Lemma one_bad_flight_fails_search_witness :
  ∃ e,
    FlightSearch.search_flights (live_world broken_flights)
      (PStr "JFK") (PStr "CDG") (PStr "2025-06-01") PNone
    = Ok (Encoded (FlightSearch.failure_result e)).
Proof.
  destruct (one_bad_flight_fails_search (live_world broken_flights)
              (PStr "JFK") (PStr "CDG") (PStr "2025-06-01") PNone
              (Response 200 (Ok broken_flights))
              [("best_flights",
                PList [sample_flight 1; PDict [("price", PInt 300)]; sample_flight 2])]
              [sample_flight 1; PDict [("price", PInt 300)]; sample_flight 2]
              (PDict [("price", PInt 300)]))
    as (e & Hcall & _); try reflexivity;
    try (apply elem_of_cons; right; apply elem_of_cons; by left).
  exists e. exact Hcall.
Defined.

Lemma flight_entry_layovers (flight entry : pyval) :
  FlightSearch.flight_entry flight = Ok entry → counts_layovers entry.
Proof.
  unfold FlightSearch.flight_entry, FlightSearch.first_leg. intros H.
  destruct flight as [| | | | | |d|]; try discriminate. simpl in H.
  destruct (assoc_lookup "flights" d) as [legs|] eqn:Hlegs; [|discriminate].
  simpl in H.
  destruct legs as [| | | |s|[|leg rest]| |]; try discriminate.
  { destruct s; discriminate. }
  simpl in H. binds H. injection H as <-.
  exists (Z.of_nat (S (length rest)) - 1)%Z. split; [lia | reflexivity].
Qed.

Lemma extract_flights_layovers (data : pyval) (flights : list pyval) :
  FlightSearch.extract_flights data = Ok flights → Forall counts_layovers flights.
Proof.
  unfold FlightSearch.extract_flights. intros H.
  apply bind_ok_inv in H as (present & _ & H).
  destruct present; [|injection H as <-; constructor].
  binds H. revert H. apply for_each_invariant; [|constructor].
  intros acc flight acc' Hacc Hbody. binds Hbody. injection Hbody as <-.
  apply Forall_app. split; [assumption|].
  constructor; [eapply flight_entry_layovers; eassumption | constructor].
Qed.

(** X19: every flight of a [success:true] result has an integer number of
    layovers that is not negative: an entry is listed only when its [flights]
    is a list with a first leg. *)
Theorem layovers_never_negative (w : World)
  (origin destination departure_date return_date doc : pyval) :
  FlightSearch.search_flights w origin destination departure_date return_date
    = Ok (Encoded doc) →
  field doc "success" = Some (PBool true) →
  ∃ flights, field doc "flights" = Some (PList flights)
             ∧ Forall counts_layovers flights.
Proof.
  intros Hcall Hsuccess.
  destruct (search_flights_success_inv _ _ _ _ _ _ Hcall Hsuccess)
    as [-> | (data & flights & Hextract & ->)].
  - eexists. split; [reflexivity|].
    repeat constructor; exists 0%Z; (split; [lia | reflexivity]).
  - eexists. split; [reflexivity|]. by eapply extract_flights_layovers.
Qed.

Lemma layovers_never_negative_witness :
  ∃ doc flights,
    FlightSearch.search_flights (live_world seven_flights)
      (PStr "JFK") (PStr "CDG") (PStr "2025-06-01") PNone = Ok (Encoded doc)
    ∧ field doc "flights" = Some (PList flights)
    ∧ Forall counts_layovers flights.
Proof.
  eexists _, _.
  match goal with
  | |- ?call = Ok (Encoded ?doc) ∧ _ =>
      assert (call = Ok (Encoded doc)) as Hcall by (vm_compute; reflexivity)
  end.
  destruct (layovers_never_negative _ _ _ _ _ _ Hcall eq_refl)
    as (flights & Hfield & Hall).
  injection Hfield as <-.
  split; [exact Hcall|]. split; [reflexivity | exact Hall].
Defined.

(** X20: when a request to the provider raises (a timeout, a refused
    connection), neither tool falls back to its mock data: the result is
    [success:false], quotes the exception, and has no list of flights or
    hotels, although its [message] announces sample data.  The requests are
    the search request of [search_flights], and the token request and the
    search request of [search_hotels], the latter made once the token
    request was answered with status 200 and a JSON body that holds an
    [access_token]. *)
Theorem provider_error_gives_no_data (w : World) (a1 a2 a3 a4 a5 : pyval) (e : exn) :
  (unset (getenv w "SERPAPI_KEY") = false →
   requests_get w "https://serpapi.com/search" None
     (FlightSearch.search_params (default "" (getenv w "SERPAPI_KEY"))
        a1 a2 a3 a4) = Raise e →
   ∃ doc,
     FlightSearch.search_flights w a1 a2 a3 a4 = Ok (Encoded doc)
     ∧ field doc "success" = Some (PBool false)
     ∧ field doc "error" = Some (PStr ("Flight search failed: " +:+ exn_str e))
     ∧ field doc "message" = Some (PStr "Using sample data instead")
     ∧ field doc "flights" = None)
  ∧ (unset (getenv w "AMADEUS_API_KEY") || unset (getenv w "AMADEUS_API_SECRET")
       = false →
     requests_post w HotelSearch.token_url
       (HotelSearch.token_data (default "" (getenv w "AMADEUS_API_KEY"))
                               (default "" (getenv w "AMADEUS_API_SECRET")))
       = Raise e →
     ∃ doc,
       HotelSearch.search_hotels w a1 a2 a3 a4 a5 = Ok (Encoded doc)
       ∧ field doc "success" = Some (PBool false)
       ∧ field doc "error" = Some (PStr ("Hotel search failed: " +:+ exn_str e))
       ∧ field doc "message" = Some (PStr "Using sample data instead")
       ∧ field doc "hotels" = None)
  ∧ (∀ token_response token_json access_token code,
       unset (getenv w "AMADEUS_API_KEY") || unset (getenv w "AMADEUS_API_SECRET")
         = false →
       requests_post w HotelSearch.token_url
         (HotelSearch.token_data (default "" (getenv w "AMADEUS_API_KEY"))
                                 (default "" (getenv w "AMADEUS_API_SECRET")))
         = Ok token_response →
       status_code token_response = 200%Z →
       json token_response = Ok token_json →
       getitem_str token_json "access_token" = Ok access_token →
       HotelSearch.city_code a1 = Ok code →
       requests_get w HotelSearch.search_url
         (Some (HotelSearch.auth_headers w access_token))
         (HotelSearch.search_params code) = Raise e →
       ∃ doc,
         HotelSearch.search_hotels w a1 a2 a3 a4 a5 = Ok (Encoded doc)
         ∧ field doc "success" = Some (PBool false)
         ∧ field doc "error" = Some (PStr ("Hotel search failed: " +:+ exn_str e))
         ∧ field doc "message" = Some (PStr "Using sample data instead")
         ∧ field doc "hotels" = None).
Proof.
  split; [|split].
  - intros Hkey Hget.
    unfold FlightSearch.search_flights, FlightSearch.search_flights_try.
    rewrite Hkey, Hget. simpl. eexists. split; [reflexivity|]. repeat split.
  - intros Hcred Hpost.
    unfold HotelSearch.search_hotels, HotelSearch.search_hotels_try.
    rewrite Hcred, Hpost. simpl. eexists. split; [reflexivity|]. repeat split.
  - intros token_response token_json access_token code
           Hcred Hpost Hstatus Htoken Haccess Hcode Hget.
    unfold HotelSearch.search_hotels, HotelSearch.search_hotels_try.
    rewrite Hcred, Hpost. simpl. rewrite Hstatus. simpl.
    rewrite Htoken. simpl. rewrite Haccess. simpl.
    rewrite Hcode. simpl. rewrite Hget. simpl.
    eexists. split; [reflexivity|]. repeat split.
Qed.

Lemma provider_error_gives_no_data_witness :
  FlightSearch.search_flights offline_world
    (PStr "JFK") (PStr "CDG") (PStr "2025-06-01") PNone
  = Ok (Encoded (FlightSearch.failure_result (Exn "ConnectTimeout" "timed out")))
  ∧ HotelSearch.search_hotels offline_world
      (PStr "Paris") (PStr "2025-06-01") (PStr "2025-06-03") (PInt 2) (PInt 5)
    = Ok (Encoded (HotelSearch.failure_result (Exn "ConnectTimeout" "timed out")))
  ∧ HotelSearch.search_hotels token_only_world
      (PStr "Paris") (PStr "2025-06-01") (PStr "2025-06-03") (PInt 2) (PInt 5)
    = Ok (Encoded (HotelSearch.failure_result (Exn "ReadTimeout" "read timed out"))).
Proof.
  destruct (provider_error_gives_no_data offline_world
              (PStr "JFK") (PStr "CDG") (PStr "2025-06-01") PNone PNone
              (Exn "ConnectTimeout" "timed out")) as (Hflights & _ & _).
  destruct (provider_error_gives_no_data offline_world
              (PStr "Paris") (PStr "2025-06-01") (PStr "2025-06-03") (PInt 2)
              (PInt 5) (Exn "ConnectTimeout" "timed out")) as (_ & Htoken & _).
  destruct (provider_error_gives_no_data token_only_world
              (PStr "Paris") (PStr "2025-06-01") (PStr "2025-06-03") (PInt 2)
              (PInt 5) (Exn "ReadTimeout" "read timed out")) as (_ & _ & Hsearch).
  destruct (Hflights eq_refl eq_refl) as (doc1 & Hcall1 & _).
  destruct (Htoken eq_refl eq_refl) as (doc2 & Hcall2 & _).
  destruct (Hsearch (Response 200 (Ok (PDict [("access_token", PStr "t")])))
              (PDict [("access_token", PStr "t")]) (PStr "t") (PStr "Paris")
              eq_refl eq_refl eq_refl eq_refl eq_refl eq_refl eq_refl)
    as (doc3 & Hcall3 & _).
  split; [|split]; reflexivity.
Defined.

(** The results of the body of [search_hotels]. *)
Lemma search_hotels_try_inv (w : World)
  (city check_in check_out guests max_results : pyval) (t : json_text) :
  HotelSearch.search_hotels_try w city check_in check_out guests max_results
    = Ok t →
  HotelSearch._get_mock_hotel_data w city check_in check_out guests max_results
    = Ok t
  ∨ ∃ data hotels,
      HotelSearch.extract_hotels city max_results data = Ok hotels
      ∧ t = Encoded (HotelSearch.live_result city check_in check_out guests hotels).
Proof.
  unfold HotelSearch.search_hotels_try. intros H.
  destruct (unset (getenv w "AMADEUS_API_KEY")
            || unset (getenv w "AMADEUS_API_SECRET")); [by left|].
  apply bind_ok_inv in H as (token_response & _ & H).
  destruct (status_code token_response =? 200)%Z; simpl in H; [|by left].
  apply bind_ok_inv in H as (token_json & _ & H).
  apply bind_ok_inv in H as (access_token & _ & H).
  apply bind_ok_inv in H as (code & _ & H).
  apply bind_ok_inv in H as (response & _ & H).
  destruct (status_code response =? 200)%Z; [|by left].
  apply bind_ok_inv in H as (data & _ & H).
  apply bind_ok_inv in H as (hotels & Hextract & H).
  apply json_dumps_inv in H as [-> _]. right. eauto.
Qed.

Lemma search_hotels_success_inv (w : World)
  (city check_in check_out guests max_results doc : pyval) :
  HotelSearch.search_hotels w city check_in check_out guests max_results
    = Ok (Encoded doc) →
  field doc "success" = Some (PBool true) →
  HotelSearch._get_mock_hotel_data w city check_in check_out guests max_results
    = Ok (Encoded doc)
  ∨ ∃ data hotels,
      HotelSearch.extract_hotels city max_results data = Ok hotels
      ∧ doc = HotelSearch.live_result city check_in check_out guests hotels.
Proof.
  unfold HotelSearch.search_hotels. intros Hcall Hsuccess.
  destruct (HotelSearch.search_hotels_try w city check_in check_out guests
              max_results) as [t|e] eqn:Htry; simpl in Hcall.
  - injection Hcall as ->.
    apply search_hotels_try_inv in Htry as [? | (data & hotels & ? & [= ->])]; eauto.
  - injection Hcall as <-. discriminate Hsuccess.
Qed.

Lemma mock_hotel_data_int_inv (w : World)
  (city check_in check_out guests : pyval) (max_results : Z) (doc : pyval) :
  HotelSearch._get_mock_hotel_data w city check_in check_out guests
    (PInt max_results) = Ok (Encoded doc) →
  doc = HotelSearch.mock_result city check_in check_out guests
          (PList (take_py (Some max_results) (HotelSearch.mock_hotels w city)))
          (PInt (if (max_results <? 5)%Z then max_results else 5)).
Proof.
  unfold HotelSearch._get_mock_hotel_data. simpl bind.
  intros [[= ->] _]%json_dumps_inv. reflexivity.
Qed.

Lemma extract_hotels_length (city data : pyval) (max_results : Z)
  (hotels : list pyval) :
  (0 ≤ max_results)%Z →
  HotelSearch.extract_hotels city (PInt max_results) data = Ok hotels →
  (Z.of_nat (length hotels) ≤ max_results)%Z.
Proof.
  unfold HotelSearch.extract_hotels. intros Hmax H.
  apply bind_ok_inv in H as (listed & _ & H).
  apply bind_ok_inv in H as (top & Htop & H).
  apply bind_ok_inv in H as (items & Hitems & H).
  apply for_each_length in H.
  - rewrite H. simpl.
    rewrite <- (Z2Nat.id max_results) in Htop by assumption.
    pose proof (iterate_slice_length _ _ _ _ Htop Hitems). lia.
  - intros acc hotel acc' Hbody. binds Hbody. injection Hbody as <-.
    rewrite length_app. simpl. lia.
Qed.

(** X21: a [success:true] result of [search_hotels] called with an integer
    [max_results >= 0] lists at most [max_results] hotels, however many the
    provider sent, and at most five when it is the mock result. *)
Theorem at_most_max_results_hotels (w : World)
  (city check_in check_out guests : pyval) (max_results : Z) (doc : pyval) :
  (0 ≤ max_results)%Z →
  HotelSearch.search_hotels w city check_in check_out guests (PInt max_results)
    = Ok (Encoded doc) →
  field doc "success" = Some (PBool true) →
  ∃ hotels,
    field doc "hotels" = Some (PList hotels)
    ∧ (Z.of_nat (length hotels) ≤ max_results)%Z
    ∧ ((∃ note, field doc "note" = Some note) → length hotels ≤ 5).
Proof.
  intros Hmax Hcall Hsuccess.
  destruct (search_hotels_success_inv _ _ _ _ _ _ _ Hcall Hsuccess)
    as [->%mock_hotel_data_int_inv | (data & hotels & Hextract & ->)].
  - eexists. split; [reflexivity|]. unfold take_py.
    replace (0 <=? max_results)%Z with true by (symmetry; by apply Z.leb_le).
    rewrite length_take. simpl length. split; [lia|]. intros _. lia.
  - eexists. split; [reflexivity|]. split; [by eapply extract_hotels_length|].
    intros [note Hnote]. discriminate Hnote.
Qed.

Lemma at_most_max_results_hotels_witness :
  ∃ doc hotels,
    HotelSearch.search_hotels (live_world seven_hotels)
      (PStr "PAR") (PStr "2025-06-01") (PStr "2025-06-03") (PInt 2) (PInt 6)
      = Ok (Encoded doc)
    ∧ field doc "hotels" = Some (PList hotels)
    ∧ length hotels = 6.
Proof.
  eexists _, _.
  match goal with
  | |- ?call = Ok (Encoded ?doc) ∧ _ =>
      assert (call = Ok (Encoded doc)) as Hcall by (vm_compute; reflexivity)
  end.
  destruct (at_most_max_results_hotels _ _ _ _ _ 6%Z _ ltac:(lia) Hcall eq_refl)
    as (hotels & Hfield & _).
  injection Hfield as <-.
  split; [exact Hcall|]. split; reflexivity.
Defined.

Lemma hotel_entry_price (city : pyval) (hotels : list pyval) (hotel entry : pyval) :
  HotelSearch.hotel_entry city hotels hotel = Ok entry →
  field entry "price_per_night" = Some (position_price (length hotels)).
Proof.
  unfold HotelSearch.hotel_entry. intros H. binds H. injection H as <-.
  reflexivity.
Qed.

Lemma extract_hotels_prices (city max_results data : pyval) (hotels : list pyval) :
  HotelSearch.extract_hotels city max_results data = Ok hotels →
  ∀ i entry, hotels !! i = Some entry →
             field entry "price_per_night" = Some (position_price i).
Proof.
  unfold HotelSearch.extract_hotels. intros H. binds H. revert H.
  apply (for_each_invariant
           (fun acc => ∀ i entry, acc !! i = Some entry →
                                  field entry "price_per_night"
                                  = Some (position_price i))).
  - intros acc hotel acc' Hacc Hbody. binds Hbody. injection Hbody as <-.
    intros i entry Hi. apply lookup_app_Some in Hi as [Hi | [Hge Hi]];
      [by apply Hacc|].
    apply list_lookup_singleton_Some in Hi as [Hz <-].
    replace i with (length acc) by lia.
    eapply hotel_entry_price; eassumption.
  - intros i entry Hi. by rewrite lookup_nil in Hi.
Qed.

(** X22: in a live result of [search_hotels] (a [success:true] result
    without a [note]) the price of a hotel depends on its position only: the
    hotel at position [i], counted from 0, is priced "$" followed by
    [100 + 25 * i]. *)
Theorem live_hotel_prices (w : World)
  (city check_in check_out guests max_results doc : pyval) :
  HotelSearch.search_hotels w city check_in check_out guests max_results
    = Ok (Encoded doc) →
  field doc "success" = Some (PBool true) →
  field doc "note" = None →
  ∃ hotels,
    field doc "hotels" = Some (PList hotels)
    ∧ ∀ i entry, hotels !! i = Some entry →
                 field entry "price_per_night" = Some (position_price i).
Proof.
  intros Hcall Hsuccess Hnote.
  destruct (search_hotels_success_inv _ _ _ _ _ _ _ Hcall Hsuccess)
    as [Hmock | (data & hotels & Hextract & ->)].
  - apply mock_hotel_data_inv in Hmock as (shown & count & _ & _ & [= ->] & _).
    discriminate Hnote.
  - eexists. split; [reflexivity|]. by eapply extract_hotels_prices.
Qed.

Lemma live_hotel_prices_witness :
  ∃ doc hotels entry,
    HotelSearch.search_hotels (live_world seven_hotels)
      (PStr "PAR") (PStr "2025-06-01") (PStr "2025-06-03") (PInt 2) (PInt 6)
      = Ok (Encoded doc)
    ∧ field doc "hotels" = Some (PList hotels)
    ∧ hotels !! 3 = Some entry
    ∧ field entry "price_per_night" = Some (PStr "$175").
Proof.
  eexists _, _, _.
  match goal with
  | |- ?call = Ok (Encoded ?doc) ∧ _ =>
      assert (call = Ok (Encoded doc)) as Hcall by (vm_compute; reflexivity)
  end.
  destruct (live_hotel_prices _ _ _ _ _ _ _ Hcall eq_refl eq_refl)
    as (hotels & Hfield & Hprices).
  injection Hfield as <-.
  split; [exact Hcall|]. split; [reflexivity|]. split; [reflexivity|].
  exact (Hprices 3 _ eq_refl).
Defined.

(** X23: with a negative [max_results] the mock result of [search_hotels]
    miscounts: [count] is [max_results] itself, a negative number, while
    [hotels] holds the first [5 + max_results] mock hotels (none below -5). *)
Theorem negative_max_results_miscounts (w : World)
  (city check_in check_out : string) (guests max_results : Z) :
  hotels_fall_back w (PStr city) →
  (max_results < 0)%Z →
  ∃ doc hotels,
    HotelSearch.search_hotels w (PStr city) (PStr check_in) (PStr check_out)
      (PInt guests) (PInt max_results) = Ok (Encoded doc)
    ∧ field doc "success" = Some (PBool true)
    ∧ field doc "hotels" = Some (PList hotels)
    ∧ field doc "count" = Some (PInt max_results)
    ∧ length hotels = Z.to_nat (5 + max_results).
Proof.
  intros Hfall Hneg.
  pose proof (mock_hotel_data_int w city check_in check_out guests max_results)
    as Hmock.
  eexists _, _. split; [eapply search_hotels_fallback; eassumption|].
  split; [reflexivity|]. split; [reflexivity|]. split.
  - simpl. replace (max_results <? 5)%Z with true
      by (symmetry; apply Z.ltb_lt; lia). reflexivity.
  - unfold take_py.
    replace (0 <=? max_results)%Z with false by (symmetry; apply Z.leb_gt; lia).
    rewrite length_take. simpl length. lia.
Qed.

Lemma negative_max_results_miscounts_witness :
  ∃ doc hotels,
    HotelSearch.search_hotels demo_world (PStr "Paris") (PStr "2025-06-01")
      (PStr "2025-06-03") (PInt 2) (PInt (-2)) = Ok (Encoded doc)
    ∧ field doc "success" = Some (PBool true)
    ∧ field doc "hotels" = Some (PList hotels)
    ∧ field doc "count" = Some (PInt (-2))
    ∧ length hotels = 3.
Proof.
  apply (negative_max_results_miscounts demo_world "Paris" "2025-06-01"
           "2025-06-03" 2 (-2)); [by apply no_credentials | lia].
Defined.

Lemma ascii_upper_idem (c : ascii) : ascii_upper (ascii_upper c) = ascii_upper c.
Proof. destruct c as [[] [] [] [] [] [] [] []]; vm_compute; reflexivity. Qed.

Lemma str_upper_idem (s : string) : str_upper (str_upper s) = str_upper s.
Proof.
  induction s as [|c s IH]; [reflexivity|].
  unfold str_upper in *. simpl. rewrite ascii_upper_idem, IH. reflexivity.
Qed.

Lemma str_upper_length (s : string) : String.length (str_upper s) = String.length s.
Proof. induction s as [|c s IH]; [reflexivity|]. simpl. f_equal. apply IH. Qed.

Lemma ascii_upper_below (c : ascii) :
  (N_of_ascii c <? 128)%N = true → (N_of_ascii (ascii_upper c) <? 128)%N = true.
Proof. destruct c as [[] [] [] [] [] [] [] []]; vm_compute; intros H; exact H || reflexivity. Qed.

Lemma str_upper_ascii_only (s : string) :
  ascii_only s = true → ascii_only (str_upper s) = true.
Proof.
  unfold ascii_only. induction s as [|c s IH]; [reflexivity|]. simpl.
  intros [Hc Hs]%andb_prop. rewrite (ascii_upper_below c Hc). simpl.
  apply IH, Hs.
Qed.

(** X24: the city code sent to the provider for a city name of ASCII
    characters: a city of exactly three characters is upper-cased, any
    other city is sent as it was given; the code is again ASCII text, and
    coding a code again changes nothing. *)
Theorem city_code_of_string (city : string) :
  ascii_only city = true →
  HotelSearch.city_code (PStr city) =
    Ok (PStr (if (String.length city =? 3)%nat then str_upper city else city))
  ∧ ∀ code, HotelSearch.city_code (PStr city) = Ok code →
            HotelSearch.city_code code = Ok code
            ∧ ∃ text, code = PStr text ∧ ascii_only text = true.
Proof.
  intros Hascii.
  assert (HotelSearch.city_code (PStr city) =
            Ok (PStr (if (String.length city =? 3)%nat then str_upper city
                      else city))) as Hcode.
  { unfold HotelSearch.city_code. simpl.
    destruct (Nat.eqb_spec (String.length city) 3) as [Hlen|Hlen].
    - rewrite Hlen. simpl. rewrite take_ge by (rewrite chars_length; lia).
      rewrite of_chars_chars. reflexivity.
    - replace (Z.of_nat (String.length city) =? 3)%Z with false; [reflexivity|].
      symmetry. apply Z.eqb_neq. lia. }
  split; [exact Hcode|]. intros code. rewrite Hcode. intros [= <-].
  split.
  - unfold HotelSearch.city_code. simpl.
    destruct (Nat.eqb_spec (String.length city) 3) as [Hlen|Hlen].
    + rewrite str_upper_length, Hlen. simpl.
      rewrite take_ge by (rewrite chars_length, str_upper_length; lia).
      rewrite of_chars_chars, str_upper_idem. reflexivity.
    + replace (Z.of_nat (String.length city) =? 3)%Z with false; [reflexivity|].
      symmetry. apply Z.eqb_neq. lia.
  - eexists. split; [reflexivity|].
    destruct (String.length city =? 3)%nat; [|exact Hascii].
    apply str_upper_ascii_only. exact Hascii.
Qed.

Lemma city_code_of_string_witness :
  HotelSearch.city_code (PStr "par") = Ok (PStr "PAR")
  ∧ HotelSearch.city_code (PStr "PAR") = Ok (PStr "PAR")
  ∧ HotelSearch.city_code (PStr "Paris") = Ok (PStr "Paris").
Proof.
  destruct (city_code_of_string "par" eq_refl) as [Hpar Hagain].
  destruct (Hagain (PStr "PAR") Hpar) as [Hcode _].
  destruct (city_code_of_string "Paris" eq_refl) as [Hparis _].
  split; [exact Hpar|]. split; [exact Hcode | exact Hparis].
Defined.

End SearchExtra.

(** * Properties of the message store *)
Module MemoryProps.
Import Py Memory.

(** X25: a store keeps the messages in the order they were added:
    adding the messages of a list one after the other to a store leaves the
    messages it held followed by the list; after [clear] the store holds
    only what is added afterwards. *)
Theorem store_keeps_order (store : SimpleMemoryStore) (added : list BaseMessage) :
  messages_list (fold_left add_message added store)
    = messages_list store ++ added
  ∧ messages_list (fold_left add_message added (clear store)) = added.
Proof.
  assert (∀ s, messages_list (fold_left add_message added s)
               = messages_list s ++ added) as Hfold.
  { induction added as [|m added IH]; intros s; simpl.
    - by rewrite app_nil_r.
    - rewrite IH. unfold add_message, messages_list. simpl.
      by rewrite <- app_assoc. }
  split; [apply Hfold|]. rewrite Hfold. reflexivity.
Qed.

End MemoryProps.
